(** * A shallow embedding of the shridarpatil/rpc dispatcher

    The development follows the three Go packages of the repository:
    the [rpc] package (server.go: [Server], [ServeHTTP]; service map:
    [serviceMap], [register], [get]) and the [json] codec package
    ([extractMethodFromURL], [NewRequest], [WriteResponse], [WriteError]).

    Modelling conventions.
    - A Go [string] is a Rocq [string], that is, a sequence of bytes.  The
      functions of Go's [strings], [unicode] and [utf8] packages are
      embedded for ASCII text; where a definition meets a byte above 0x7F
      its comment says what is modelled.
    - A Go run-time panic (slicing past the end of a string, calling a
      method on a nil interface, [NumField] on a non-struct type) is the
      result [Panics] of the type [go].
    - The effects of [ServeHTTP] on the [http.ResponseWriter] and the
      calls it makes to hooks and to the service method are recorded, in
      order, in a trace of [Event]s.
    - The primitives of [encoding/json] and the values they handle are
      parameters of the development. *)

From Stdlib Require Import ZArith Ascii String List Bool Lia.
From stdpp Require Import base option list strings gmap.

Open Scope string_scope.

(** ** Panics *)

Inductive go (A : Type) : Type :=
| Ret (a : A)
| Panics.
Arguments Ret {A} a.
Arguments Panics {A}.

Definition go_bind {A B : Type} (x : go A) (k : A -> go B) : go B :=
  match x with
  | Ret a => k a
  | Panics => Panics
  end.

(** ** The string functions the code uses *)

Module GoStrings.

Definition byte (a : ascii) : N := N_of_ascii a.

Definition isLowerByte (a : ascii) : bool :=
  (97 <=? byte a)%N && (byte a <=? 122)%N.

Definition isUpperByte (a : ascii) : bool :=
  (65 <=? byte a)%N && (byte a <=? 90)%N.

Definition isDigitByte (a : ascii) : bool :=
  (48 <=? byte a)%N && (byte a <=? 57)%N.

Definition upperByte (a : ascii) : ascii :=
  if isLowerByte a then ascii_of_N (byte a - 32) else a.

Definition lowerByte (a : ascii) : ascii :=
  if isUpperByte a then ascii_of_N (byte a + 32) else a.

(** [strings.Split(s, sep)] for a one-byte separator: never empty: the
    split of the empty string is the one-element list of the empty
    string. *)
Fixpoint Split (s : string) (sep : ascii) : list string :=
  match s with
  | EmptyString => [EmptyString]
  | String a s' =>
      if Ascii.eqb a sep then EmptyString :: Split s' sep
      else match Split s' sep with
           | [] => [String a EmptyString]
           | p :: ps => String a p :: ps
           end
  end.

(** [strings.HasPrefix] and [strings.TrimPrefix]. *)
Definition HasPrefix (s p : string) : bool := String.prefix p s.

Fixpoint dropBytes (n : nat) (s : string) : string :=
  match n, s with
  | O, _ => s
  | S n', String _ s' => dropBytes n' s'
  | S _, EmptyString => EmptyString
  end.

Definition TrimPrefix (s p : string) : string :=
  if HasPrefix s p then dropBytes (String.length p) s else s.

(** [strings.Trim(s, cutset)] for a one-byte cutset. *)
Fixpoint trimLeft (s : string) (c : ascii) : string :=
  match s with
  | String a s' => if Ascii.eqb a c then trimLeft s' c else s
  | EmptyString => EmptyString
  end.

Fixpoint trimRight (s : string) (c : ascii) : string :=
  match s with
  | EmptyString => EmptyString
  | String a s' =>
      match trimRight s' c with
      | EmptyString => if Ascii.eqb a c then EmptyString else String a EmptyString
      | t => String a t
      end
  end.

Definition Trim (s : string) (c : ascii) : string :=
  trimRight (trimLeft s c) c.

(** [s[:idx]] where [idx := strings.Index(s, sep)], and [s] itself when
    the separator does not occur ([idx == -1]). *)
Fixpoint cutAt (s : string) (sep : ascii) : string :=
  match s with
  | EmptyString => EmptyString
  | String a s' => if Ascii.eqb a sep then EmptyString else String a (cutAt s' sep)
  end.

(** [strings.ToLower], on ASCII text. *)
Fixpoint ToLower (s : string) : string :=
  match s with
  | EmptyString => EmptyString
  | String a s' => String (lowerByte a) (ToLower s')
  end.

(** [strings.ToUpper] of a one-byte string.  A byte below 0x80 is mapped
    by the ASCII rule; a lone byte from 0x80 on is not valid UTF-8, is
    decoded as [utf8.RuneError] and written back as the three bytes
    EF BF BD of U+FFFD. *)
Definition ToUpper1 (a : ascii) : string :=
  if (byte a <? 128)%N then String (upperByte a) EmptyString
  else String (ascii_of_N 239) (String (ascii_of_N 191) (String (ascii_of_N 189) EmptyString)).

(** [strings.ToUpper(s[:1]) + s[1:]]; the slice [s[:1]] panics on the
    empty string. *)
Definition upperFirst (s : string) : go string :=
  match s with
  | EmptyString => Panics
  | String a s' => Ret (ToUpper1 a ++ s')
  end.

(** [strings.Title]: every letter that begins a word is mapped to title
    case, a word beginning after a separator.  [isSeparator] on ASCII:
    letters, digits and the underscore are not separators, every other
    ASCII byte is.  Bytes above 0x7F belong to runes whose class comes
    from the Unicode tables; they are kept as they are and taken as
    letters. *)
Definition isSeparator (a : ascii) : bool :=
  if (byte a <? 128)%N
  then negb (isLowerByte a || isUpperByte a || isDigitByte a || Ascii.eqb a "_"%char)
  else false.

Fixpoint titleFrom (prevSep : bool) (s : string) : string :=
  match s with
  | EmptyString => EmptyString
  | String a s' =>
      String (if prevSep then upperByte a else a) (titleFrom (isSeparator a) s')
  end.

Definition Title (s : string) : string := titleFrom true s.

(** [strings.Join]. *)
Fixpoint Join (l : list string) (sep : string) : string :=
  match l with
  | [] => EmptyString
  | [x] => x
  | x :: rest => x ++ sep ++ Join rest sep
  end.

End GoStrings.
Import GoStrings.

(** ** Values, errors and JSON documents *)

(** A JSON document, as [encoding/json] reads and writes it. *)
#[warnings="-register-all"]
Inductive Json : Type :=
| JNull
| JBool (b : bool)
| JNumber (n : Z)
| JString (s : string)
| JArray (l : list Json)
| JObject (members : list (string * Json)).

(** [%q] of [fmt]: the name between double quotes (the names met here hold
    no byte that [strconv.Quote] escapes). *)
Definition quoted (s : string) : string :=
  String (ascii_of_N 34) (s ++ String (ascii_of_N 34) EmptyString).

(** The [reflect.Type]s the registry inspects: what [Kind], [Elem],
    [Name], [PkgPath], [NumField] and [Field] return for them. *)
Record StructField := mkField { fieldName : string; fieldPkgPath : string }.

Inductive GoType : Type :=
| TStruct (pkg name : string) (fields : list StructField)
| TPtr (elem : GoType)
| TOther (pkg name : string).

Global Instance StructField_eq_dec : EqDecision StructField.
Proof. solve_decision. Defined.

Global Instance GoType_eq_dec : EqDecision GoType.
Proof. solve_decision. Defined.

Definition typeName (t : GoType) : string :=
  match t with
  | TStruct _ n _ => n
  | TPtr _ => EmptyString
  | TOther _ n => n
  end.

Definition typePkgPath (t : GoType) : string :=
  match t with
  | TStruct p _ _ => p
  | TPtr _ => EmptyString
  | TOther p _ => p
  end.

Definition isPtr (t : GoType) : bool :=
  match t with TPtr _ => true | _ => false end.

(** [t.NumField()] with [t.Field(i)]: the fields of a struct type, a panic
    on every other kind. *)
Definition structFields (t : GoType) : go (list StructField) :=
  match t with
  | TStruct _ _ fs => Ret fs
  | _ => Panics
  end.

(** [http.Request]; of its fields the first, [Method], is listed (the
    dispatcher's scan of a field list stops at the first exported one). *)
Definition httpRequestStruct : GoType :=
  TStruct "net/http" "Request" [mkField "Method" EmptyString].

(** [reflect.TypeOf(&http.Request{})]. *)
Definition httpReqType : GoType := TPtr httpRequestStruct.

(** The type of the [error] interface, which register compares the
    method's result type with. *)
Definition errorType : GoType := TOther EmptyString "error".

(** [reflect.TypeOf(struct{}{})]. *)
Definition emptyStruct : GoType := TStruct EmptyString EmptyString [].

(** [isExported]: [utf8.DecodeRuneInString] then [unicode.IsUpper], on a
    name whose first byte is ASCII. *)
Definition isExported (name : string) : bool :=
  match name with
  | EmptyString => false
  | String a _ => isUpperByte a
  end.

(** [isExportedOrBuiltin]. *)
Fixpoint isExportedOrBuiltin (t : GoType) : bool :=
  match t with
  | TPtr e => isExportedOrBuiltin e
  | _ => isExported (typeName t) || bool_decide (typePkgPath t = EmptyString)
  end.

(** ** The [rpc] package: the service map *)

Section Rpc.

(** The Go values that travel as [interface{}]: decoded arguments,
    replies and the payload of a structured error. *)
Context {Value : Type}.

(** An [error] is either the codec's [*json.Error], which carries a
    payload, or any other error, of which only the message is
    observed. *)
Inductive error : Type :=
| ErrorString (msg : string)
| JsonError (data : Value).

(** The result of [json.NewDecoder(r.Body).Decode(req)] on the body of a
    request: an error, or the [Method] and [Params] fields it filled. *)
Inductive BodyDecode : Type :=
| BodyError (e : error)
| BodyRequest (method : string) (params : option Json).

(** [*http.Request], as far as the dispatcher and the codec read it. *)
Record Request := mkRequest {
  reqMethod : string;                   (* r.Method *)
  reqPath : string;                     (* r.URL.Path *)
  reqContentType : string;              (* r.Header.Get("Content-Type") *)
  reqParseForm : option error;          (* the error of r.ParseForm() *)
  reqForm : gmap string (list string);  (* r.Form once parsed *)
  reqBody : BodyDecode;
}.

(** A [reflect.Method] of the receiver's type.  [methIn] lists the
    parameter types with the receiver first, as [Type.In] numbers them.
    [methFunc] is the call [Func.Call]: it takes the request, the
    arguments (absent for a method of the two-parameter shape) and the
    reply the dispatcher allocated, and gives back the reply as the
    method left it and the error it returned. *)
Record reflectMethod := mkMethod {
  methName : string;
  methPkgPath : string;
  methIn : list GoType;
  methOut : list GoType;
  methFunc : Request -> option Value -> Value -> Value * option error;
}.

(** The receiver handed to [register]: [reflect.Indirect(rcvr).Type().Name()]
    and the methods [rcvrType.Method(i)] enumerates. *)
Record Receiver := mkReceiver {
  rcvrTypeName : string;
  rcvrMethods : list reflectMethod;
}.

Record serviceMethod := mkServiceMethod {
  method : reflectMethod;
  argsType : GoType;
  replyType : GoType;
  noArgs : bool;
}.

Record service := mkService {
  name : string;
  rcvr : Receiver;
  methods : gmap string serviceMethod;
}.

(** [serviceMap.services] is a Go map that starts out nil. *)
Record serviceMap := mkServiceMap {
  services : option (gmap string service);
}.

(** The entries of the registry; a nil map has none. *)
Definition entries (m : serviceMap) : gmap string service :=
  default ∅ (services m).

(** The body of the loop of [register] for one method: [None] is a
    [continue]. *)
Definition checkOut (meth : reflectMethod) (argElem replyElem : GoType) (na : bool)
  : option serviceMethod :=
  match methOut meth with
  | [out0] =>
      if bool_decide (out0 = errorType)
      then Some (mkServiceMethod meth argElem replyElem na)
      else None
  | _ => None
  end.

Definition scanMethod (meth : reflectMethod) : option serviceMethod :=
  if negb (isExported (methName meth)) then None
  else if negb (bool_decide (methPkgPath meth = EmptyString)) then None
  else
    match methIn meth with
    | [_; in1; in2; in3] =>
        if negb (bool_decide (in1 = httpReqType)) then None
        else match in2 with
             | TPtr argElem =>
                 if negb (isExportedOrBuiltin in2) then None
                 else match in3 with
                      | TPtr replyElem =>
                          if negb (isExportedOrBuiltin in3) then None
                          else checkOut meth argElem replyElem false
                      | _ => None
                      end
             | _ => None
             end
    | [_; in1; in2] =>
        if negb (bool_decide (in1 = httpReqType)) then None
        else match in2 with
             | TPtr replyElem =>
                 if negb (isExportedOrBuiltin in2) then None
                 else checkOut meth emptyStruct replyElem true
             | _ => None
             end
    | _ => None
    end.

Definition scanMethods (ms : list reflectMethod) : gmap string serviceMethod :=
  foldl (fun acc meth =>
           match scanMethod meth with
           | Some sm => <[methName meth := sm]> acc
           | None => acc
           end) ∅ ms.

Definition errNotExported (n : string) : error :=
  ErrorString ("rpc: type " ++ quoted n ++ " is not exported").

Definition errDuplicate (n : string) : error :=
  ErrorString ("rpc: service already defined: " ++ quoted n).

Definition errNoMethods (n : string) : error :=
  ErrorString ("rpc: " ++ quoted n ++ " has no exported methods of suitable type").

(** [register]: the registry after the call and the error returned. *)
Definition register (m : serviceMap) (r : Receiver) (nm : string)
  : serviceMap * option error :=
  let sname := if bool_decide (nm ≠ EmptyString) then nm else rcvrTypeName r in
  if bool_decide (nm = EmptyString) && negb (isExported sname)
  then (m, Some (errNotExported sname))
  else
    let svcs := match services m with
                | None => ∅
                | Some svcs => svcs
                end in
    if bool_decide (is_Some (services m)) && bool_decide (is_Some (svcs !! sname))
    then (m, Some (errDuplicate sname))
    else
      let s := mkService sname r (scanMethods (rcvrMethods r)) in
      if bool_decide (size (methods s) = 0)
      then (mkServiceMap (Some svcs), Some (errNoMethods sname))
      else (mkServiceMap (Some (<[sname := s]> svcs)), None).

(** [get]. *)
Inductive result (A : Type) : Type :=
| Ok (a : A)
| Err (e : error).
Arguments Ok {A} a.
Arguments Err {A} e.

Definition get (m : serviceMap) (meth : string) : result (service * serviceMethod) :=
  match Split meth "." with
  | [p0; p1] =>
      match entries m !! Title p0 with
      | None => Err (ErrorString ("rpc: can't find service " ++ Title p0))
      | Some svc =>
          match methods svc !! Title p1 with
          | None => Err (ErrorString ("rpc: can't find method " ++ Title p1))
          | Some sm => Ok (svc, sm)
          end
      end
  | _ => Err (ErrorString ("rpc: service/method request ill-formed: " ++ meth))
  end.

(** ** The [json] package: the codec *)

(** What [encoding/json] and [fmt] do with a [Value], and the zero value
    [reflect.New] allocates for a type. *)
Variable zeroValue : GoType -> Value.
Variable jsonUnmarshal : Json -> GoType -> Value -> Value * option error.
Variable jsonMarshal : Value -> result Json.
Variable formatValue : Value -> string.

(** [err.Error()]. *)
Definition errorMessage (e : error) : string :=
  match e with
  | ErrorString msg => msg
  | JsonError data => formatValue data
  end.

Record serverRequest := mkServerRequest {
  Method_ : string;
  Params : option Json;
}.

(** An [interface{}] field of [serverResponse]: the raw message [null],
    a Go value, or a string. *)
Inductive iface : Type :=
| INull
| IValue (v : Value)
| IString (s : string).

Record serverResponse := mkServerResponse {
  Result : iface;
  Error : iface;
}.

Record CodecRequest := mkCodecRequest {
  request : option serverRequest;
  err : option error;
}.

(** [r.Form.Get(key)]. *)
Definition formGet (form : gmap string (list string)) (key : string) : string :=
  match form !! key with
  | Some (v :: _) => v
  | _ => EmptyString
  end.

(** The first-letter capitalisation that [extractMethodFromURL] and
    [capitalizeMethod] both carry out on a name of two dotted parts. *)
Definition capitalizeMethod (meth : string) : go string :=
  match Split meth "." with
  | [p0; p1] =>
      go_bind (upperFirst p0) (fun svc =>
      go_bind (upperFirst p1) (fun mname =>
      Ret (svc ++ "." ++ mname)))
  | _ => Ret meth
  end.

Definition extractMethodFromURL (r : Request) : go string :=
  let methodName :=
    if HasPrefix (reqPath r) "/rpc/"
    then let methodPath := TrimPrefix (reqPath r) "/rpc/" in
         if bool_decide (methodPath ≠ EmptyString) then methodPath else EmptyString
    else EmptyString in
  let methodName :=
    if bool_decide (methodName = EmptyString)
    then match last (Split (Trim (reqPath r) "/") "/") with
         | Some seg => if bool_decide (seg ≠ EmptyString) then seg else methodName
         | None => methodName
         end
    else methodName in
  let methodName :=
    if bool_decide (methodName = EmptyString)
    then let methodParam := formGet (reqForm r) "method" in
         if bool_decide (methodParam ≠ EmptyString) then methodParam else methodName
    else methodName in
  if bool_decide (methodName ≠ EmptyString)
  then capitalizeMethod methodName
  else Ret methodName.

Definition newPostCodecRequest (r : Request) (methodFromURL : string) : CodecRequest :=
  match reqBody r with
  | BodyRequest m ps =>
      if bool_decide (methodFromURL ≠ EmptyString) && bool_decide (m = EmptyString)
      then mkCodecRequest (Some (mkServerRequest methodFromURL ps)) None
      else mkCodecRequest (Some (mkServerRequest m ps)) None
  | BodyError e =>
      if bool_decide (methodFromURL ≠ EmptyString)
      then mkCodecRequest (Some (mkServerRequest methodFromURL None)) None
      else mkCodecRequest (Some (mkServerRequest EmptyString None)) (Some e)
  end.

(** [convertURLParamsToJSON]: the [method] key is deleted from the form
    itself, and the remaining keys become the members of one object. *)
Definition paramOfValues (kv : string * list string) : option (string * Json) :=
  match kv.2 with
  | [] => None
  | [v] => Some (kv.1, JString v)
  | vs => Some (kv.1, JArray (JString <$> vs))
  end.

Definition convertURLParamsToJSON (form : gmap string (list string))
  : gmap string (list string) * Json :=
  let form' := delete "method" form in
  (form', JObject (omap paramOfValues (map_to_list form'))).

Definition errMethodMissing : error := ErrorString "rpc: method name missing".

(** [newGetCodecRequest]; the request comes back with the form as the
    conversion left it. *)
Definition newGetCodecRequest (r : Request) (methodFromURL : string)
  : CodecRequest * Request :=
  if bool_decide (methodFromURL = EmptyString)
  then (mkCodecRequest None (Some errMethodMissing), r)
  else
    let '(form', paramsJSON) := convertURLParamsToJSON (reqForm r) in
    (mkCodecRequest (Some (mkServerRequest methodFromURL (Some paramsJSON))) None,
     mkRequest (reqMethod r) (reqPath r) (reqContentType r) (reqParseForm r) form' (reqBody r)).

(** [Codec.NewRequest]. *)
Definition NewRequest (r : Request) : go (CodecRequest * Request) :=
  match reqParseForm r with
  | Some e => Ret (mkCodecRequest None (Some e), r)
  | None =>
      go_bind (extractMethodFromURL r) (fun methodFromURL =>
      if bool_decide (reqMethod r = "GET")
      then Ret (newGetCodecRequest r methodFromURL)
      else Ret (newPostCodecRequest r methodFromURL, r))
  end.

(** [CodecRequest.Method]. *)
Definition Method (c : CodecRequest) : go (result string) :=
  match err c with
  | None => match request c with
            | Some rq => Ret (Ok (Method_ rq))
            | None => Panics
            end
  | Some e => Ret (Err e)
  end.

(** [CodecRequest.ReadRequest]: the error returned, the arguments as
    [json.Unmarshal] left them, and the codec request afterwards. *)
Definition ReadRequest (c : CodecRequest) (t : GoType) (args : Value)
  : go (option error * Value * CodecRequest) :=
  match err c with
  | Some e => Ret (Some e, args, c)
  | None =>
      match request c with
      | None => Panics
      | Some rq =>
          let raw := match Params rq with
                     | Some ps => ps
                     | None => JObject []
                     end in
          let '(args', e) := jsonUnmarshal raw t args in
          Ret (e, args', mkCodecRequest (Some (mkServerRequest (Method_ rq) (Some raw))) e)
      end
  end.

(** ** The response writer and the hooks, as a trace *)

Record RequestInfo := mkRequestInfo {
  infoMethod : string;
  infoError : option error;
  infoRequest : Request;
  infoStatusCode : Z;
}.

Inductive Event : Type :=
| SetHeader (key value : string)             (* w.Header().Set *)
| WriteHeader (status : Z)                   (* w.WriteHeader *)
| WriteJson (doc : Json)                     (* w.Write of the marshalled document *)
| WriteText (msg : string)                   (* fmt.Fprint(w, msg) *)
| CallIntercept (i : RequestInfo)
| CallBefore (i : RequestInfo)
| CallValidate (i : RequestInfo) (args : Value)
| CallMethod (svc mname : string) (r : Request) (args : option Value)
| CallAfter (i : RequestInfo).

Inductive Outcome : Type :=
| Returned
| Panicked.

Definition Run : Type := list Event * Outcome.

Definition returns (evs : list Event) : Run := (evs, Returned).

Definition seq (evs : list Event) (k : Run) : Run := (app evs k.1, k.2).

Definition panics : Run := ([], Panicked).

Definition run_bind {A : Type} (x : go A) (k : A -> Run) : Run :=
  match x with
  | Ret a => k a
  | Panics => panics
  end.

(** [rpc.WriteError]. *)
Definition rpcWriteError (status : Z) (msg : string) : list Event :=
  [SetHeader "Content-Type" "text/plain; charset=utf-8";
   WriteHeader status;
   WriteText msg].

(** [json.Marshal] of a [serverResponse]: an object of the two members
    [result] and [error], in the order of the struct's fields. *)
Definition marshalIface (x : iface) : result Json :=
  match x with
  | INull => Ok JNull
  | IValue v => jsonMarshal v
  | IString s => Ok (JString s)
  end.

Definition marshalResponse (res : serverResponse) : result Json :=
  match marshalIface (Result res) with
  | Err e => Err e
  | Ok jr =>
      match marshalIface (Error res) with
      | Err e => Err e
      | Ok je => Ok (JObject [("result", jr); ("error", je)])
      end
  end.

Definition writeServerResponse (status : Z) (res : serverResponse) : list Event :=
  match marshalResponse res with
  | Ok b =>
      [SetHeader "Content-Type" "application/json; charset=utf-8";
       WriteHeader status;
       WriteJson b]
  | Err e => rpcWriteError 400 (errorMessage e)
  end.

(** [CodecRequest.WriteResponse]. *)
Definition WriteResponse (reply : Value) : list Event :=
  writeServerResponse 200 (mkServerResponse (IValue reply) INull).

(** [CodecRequest.WriteError]; the status passed in is the parameter the
    source names [_]. *)
Definition WriteError (status : Z) (e : error) : list Event :=
  let errField := match e with
                  | JsonError data => IValue data
                  | _ => IString (errorMessage e)
                  end in
  writeServerResponse 400 (mkServerResponse INull errField).

(** ** The [rpc] package: the server *)

Inductive Codec : Type := JSONCodec.

Record Server := mkServer {
  codecs : gmap string Codec;
  srvServices : serviceMap;
  interceptFunc : option (RequestInfo -> option Request);
  beforeFunc : option (RequestInfo -> RequestInfo);
  afterFunc : bool;
  validateFunc : option (RequestInfo -> Value -> option error);
  allowedMethods : list string;
}.

Definition errMethodNotFound (meth : string) : error :=
  ErrorString ("rpc: method not found: " ++ meth).

(** [getNormalizedMethod]. *)
Definition getNormalizedMethod (s : Server) (meth : string) : go (result string) :=
  match get (srvServices s) meth with
  | Ok _ => Ret (Ok meth)
  | Err _ =>
      go_bind (capitalizeMethod meth) (fun methodCapitalized =>
      if bool_decide (methodCapitalized ≠ meth)
      then match get (srvServices s) methodCapitalized with
           | Ok _ => Ret (Ok methodCapitalized)
           | Err _ => Ret (Err (errMethodNotFound meth))
           end
      else Ret (Err (errMethodNotFound meth)))
  end.

(** The codec [ServeHTTP] picks: a codec of the table, no codec at all
    (the nil interface), or none for this content type. *)
Inductive CodecChoice : Type :=
| Chosen (c : option Codec)
| Unrecognized (contentType : string).

Definition anyCodec (s : Server) : option Codec :=
  snd <$> head (map_to_list (codecs s)).

Definition selectCodec (s : Server) (r : Request) : CodecChoice :=
  if bool_decide (reqMethod r = "GET")
  then
    if bool_decide (size (codecs s) = 1) then Chosen (anyCodec s)
    else match codecs s !! "application/json" with
         | Some jsonCodec => Chosen (Some jsonCodec)
         | None => Chosen (anyCodec s)
         end
  else
    let contentType := cutAt (reqContentType r) ";" in
    if bool_decide (contentType = EmptyString) && bool_decide (size (codecs s) = 1)
    then Chosen (anyCodec s)
    else match codecs s !! ToLower contentType with
         | Some c => Chosen (Some c)
         | None => Unrecognized contentType
         end.

(** [ServeHTTP], from the intercept function to the call of the
    method: the events, the request the intercept function left, the
    reply and the error value. *)
Definition callStage (s : Server) (r : Request) (meth : string)
    (svc : service) (ms : serviceMethod) (args : Value)
  : list Event * Request * Value * option error :=
  let info0 := mkRequestInfo meth None r 0%Z in
  let '(evIntercept, r) :=
    match interceptFunc s with
    | Some f => ([CallIntercept info0],
                 match f info0 with
                 | Some req => req
                 | None => r
                 end)
    | None => ([], r)
    end in
  let requestInfo := mkRequestInfo meth None r 0%Z in
  let '(evBefore, requestInfo) :=
    match beforeFunc s with
    | Some f => ([CallBefore requestInfo], f requestInfo)
    | None => ([], requestInfo)
    end in
  let reply := zeroValue (replyType ms) in
  let '(evValidate, errValue) :=
    match validateFunc s with
    | Some f =>
        if negb (noArgs ms)
        then ([CallValidate requestInfo args], f requestInfo args)
        else ([], None)
    | None => ([], None)
    end in
  let '(evCall, reply, errValue) :=
    match errValue with
    | None =>
        let callArgs := if noArgs ms then None else Some args in
        let '(reply', e) := methFunc (method ms) r callArgs reply in
        ([CallMethod (name svc) (methName (method ms)) r callArgs], reply', e)
    | Some e => ([], reply, Some e)
    end in
  (app evIntercept (app evBefore (app evValidate evCall)), r, reply, errValue).

(** [ServeHTTP], from the intercept function to the after function:
    the method and its arguments are known. *)
Definition invokeAndRespond (s : Server) (r : Request) (meth : string)
    (svc : service) (ms : serviceMethod) (args : Value) : Run :=
  let '(evCalls, r, reply, errValue) := callStage s r meth svc ms args in
  let statusCode : Z := match errValue with
                        | None => 200%Z
                        | Some _ => 400%Z
                        end in
  let evWrite :=
    SetHeader "x-content-type-options" "nosniff" ::
    match errValue with
    | None => WriteResponse reply
    | Some errResult => WriteError statusCode errResult
    end in
  let evAfter :=
    if afterFunc s
    then [CallAfter (mkRequestInfo meth errValue r statusCode)]
    else [] in
  returns (app evCalls (app evWrite evAfter)).

(** The arguments step: [Err] is the decode error that ends the request. *)
Definition hasExportedFields (fs : list StructField) : bool :=
  existsb (fun f => bool_decide (fieldPkgPath f = EmptyString)) fs.

Definition decodeArgs (codecReq : CodecRequest) (ms : serviceMethod) : go (result Value) :=
  if negb (noArgs ms)
  then
    let args := zeroValue (argsType ms) in
    go_bind (ReadRequest codecReq (argsType ms) args) (fun '(errRead, args, _) =>
    match errRead with
    | Some e =>
        go_bind (structFields (argsType ms)) (fun fs =>
        if hasExportedFields fs then Ret (Err e) else Ret (Ok args))
    | None => Ret (Ok args)
    end)
  else Ret (Ok (zeroValue emptyStruct)).

(** [ServeHTTP] from the registry lookup on. *)
Definition dispatch (s : Server) (r : Request) (codecReq : CodecRequest)
    (meth : string) : Run :=
  match get (srvServices s) meth with
  | Err errGet => returns (WriteError 400 errGet)
  | Ok (serviceSpec, methodSpec) =>
      run_bind (decodeArgs codecReq methodSpec) (fun a =>
      match a with
      | Err errRead => returns (WriteError 400 errRead)
      | Ok args => invokeAndRespond s r meth serviceSpec methodSpec args
      end)
  end.

(** The method name of the path, for a path [/rpc/<method>]: the empty
    string when there is none, [Err] when the name is not found. *)
Definition pathMethod (s : Server) (r : Request) : go (result string) :=
  if HasPrefix (reqPath r) "/rpc/"
  then
    let methodFromPath := TrimPrefix (reqPath r) "/rpc/" in
    if bool_decide (methodFromPath ≠ EmptyString)
    then getNormalizedMethod s methodFromPath
    else Ret (Ok methodFromPath)
  else Ret (Ok EmptyString).

Definition errNotAllowed (s : Server) (r : Request) : string :=
  "rpc: only " ++ Join (allowedMethods s) "," ++ " methods are allowed, received "
    ++ reqMethod r.

Definition ServeHTTP (s : Server) (r : Request) : Run :=
  if negb (existsb (String.eqb (reqMethod r)) (allowedMethods s))
  then returns (rpcWriteError 405 (errNotAllowed s r))
  else
    run_bind (pathMethod s r) (fun pm =>
    match pm with
    | Err e => returns (rpcWriteError 404 (errorMessage e))
    | Ok methodFromPath =>
        match selectCodec s r with
        | Unrecognized contentType =>
            returns (rpcWriteError 415 ("rpc: unrecognized Content-Type: " ++ contentType))
        | Chosen None => panics
        | Chosen (Some JSONCodec) =>
            run_bind (NewRequest r) (fun '(codecReq, r) =>
            if bool_decide (methodFromPath ≠ EmptyString)
            then dispatch s r codecReq methodFromPath
            else
              run_bind (Method codecReq) (fun m =>
              match m with
              | Err errMethod => returns (WriteError 400 errMethod)
              | Ok meth =>
                  run_bind (getNormalizedMethod s meth) (fun n =>
                  match n with
                  | Ok normalizedMethod => dispatch s r codecReq normalizedMethod
                  | Err e => returns (WriteError 400 e)
                  end)
              end))
        end
    end).

(** ** The [rpc] package: configuring the server *)

(** [NewServer]. *)
Definition NewServer : Server :=
  mkServer ∅ (mkServiceMap None) None None false None ["POST"; "GET"; "DELETE"; "PUT"].

(** [Server.RegisterCodec]. *)
Definition RegisterCodec (s : Server) (codec : Codec) (contentType : string) : Server :=
  mkServer (<[ToLower contentType := codec]> (codecs s)) (srvServices s)
    (interceptFunc s) (beforeFunc s) (afterFunc s) (validateFunc s) (allowedMethods s).

(** [Server.RegisterService]: the server afterwards and the error. *)
Definition RegisterService (s : Server) (receiver : Receiver) (nm : string)
  : Server * option error :=
  let '(m, e) := register (srvServices s) receiver nm in
  (mkServer (codecs s) m (interceptFunc s) (beforeFunc s) (afterFunc s) (validateFunc s)
     (allowedMethods s), e).

(** [Server.removeMethod] and the four functions that call it. *)
Definition removeMethod (s : Server) (methodToRemove : string) : Server :=
  mkServer (codecs s) (srvServices s) (interceptFunc s) (beforeFunc s) (afterFunc s)
    (validateFunc s)
    (List.filter (fun m => negb (String.eqb m methodToRemove)) (allowedMethods s)).

Definition DisableGET (s : Server) : Server := removeMethod s "GET".

Definition DisablePOST (s : Server) : Server := removeMethod s "POST".

Definition DisablePUT (s : Server) : Server := removeMethod s "PUT".

Definition DisableDelete (s : Server) : Server := removeMethod s "DELETE".

(** [Server.HasMethod]. *)
Definition HasMethod (s : Server) (meth : string) : go bool :=
  match get (srvServices s) meth with
  | Ok _ => Ret true
  | Err _ =>
      go_bind (capitalizeMethod meth) (fun methodCapitalized =>
      if bool_decide (methodCapitalized ≠ meth)
      then match get (srvServices s) methodCapitalized with
           | Ok _ => Ret true
           | Err _ => Ret false
           end
      else Ret false)
  end.

End Rpc.

Arguments Ok {Value A} a.
Arguments Err {Value A} e.

(** ** Notions the properties are stated with *)

Section Notions.

Context {Value : Type}.
Variable jsonMarshal : Value -> @result Value Json.
Variable formatValue : Value -> string.
Local Abbreviation writeResponse := (WriteResponse jsonMarshal formatValue).
Local Abbreviation writeError := (WriteError jsonMarshal formatValue).

(** The service name [register] settles on. *)
Definition resolvedName (r : @Receiver Value) (nm : string) : string :=
  if bool_decide (nm ≠ EmptyString) then nm else rcvrTypeName r.

(** The qualification rules as the specification lists them: an exported
    name; three parameters (request, args, reply) or two (request,
    reply) after the receiver; the first of them the HTTP request
    handle; args and reply pointers to an exported or builtin type; one
    result, the error type. *)
Definition qualifies (meth : @reflectMethod Value) : bool :=
  isExported (methName meth) && bool_decide (methPkgPath meth = EmptyString)
  && match methIn meth with
     | [_; rq; a; rp] =>
         bool_decide (rq = httpReqType)
         && isPtr a && isExportedOrBuiltin a && isPtr rp && isExportedOrBuiltin rp
     | [_; rq; rp] =>
         bool_decide (rq = httpReqType) && isPtr rp && isExportedOrBuiltin rp
     | _ => false
     end
  && match methOut meth with
     | [o] => bool_decide (o = errorType)
     | _ => false
     end.

(** A segment written like a Go identifier in ASCII: letters, digits and
    the underscore. *)
Definition identByte (a : ascii) : bool :=
  isLowerByte a || isUpperByte a || isDigitByte a || Ascii.eqb a "_"%char.

Fixpoint identLike (s : string) : bool :=
  match s with
  | EmptyString => true
  | String a s' => identByte a && identLike s'
  end.

(** The segment with its first letter in upper case, the rest as it is. *)
Definition capFirst (s : string) : string :=
  match s with
  | EmptyString => EmptyString
  | String a s' => String (upperByte a) s'
  end.

(** The four sources of the specification, in its order: (a) what
    follows the reserved prefix of the path, (b) the last segment of the
    path, (c) the [method] field of the form, (d) the [method] field of
    the decoded body. *)
Definition prefixSource (r : @Request Value) : string :=
  if HasPrefix (reqPath r) "/rpc/" then TrimPrefix (reqPath r) "/rpc/" else EmptyString.

Definition lastSegmentSource (r : @Request Value) : string :=
  default EmptyString (last (Split (Trim (reqPath r) "/") "/")).

Definition formSource (r : @Request Value) : string := formGet (reqForm r) "method".


Fixpoint firstNonEmpty (l : list string) : string :=
  match l with
  | [] => EmptyString
  | x :: l' => if bool_decide (x ≠ EmptyString) then x else firstNonEmpty l'
  end.


(** The name the URL gives: the first non-empty of (a), (b) and (c). *)
Definition urlName (r : @Request Value) : string :=
  firstNonEmpty [prefixSource r; lastSegmentSource r; formSource r].

(** What [ServeHTTP] asks of the codec: [NewRequest], then [Method]. *)
Definition codecMethod (r : @Request Value) : go (@result Value string) :=
  go_bind (NewRequest r) (fun cr => Method cr.1).

(** The value of the [error] member: the payload of a structured error,
    the message of any other. *)
Definition errorValue (e : @error Value) : iface :=
  match e with
  | JsonError data => IValue data
  | ErrorString msg => IString msg
  end.

Definition jsonBody (status : Z) (result error : Json) : list (@Event Value) :=
  [SetHeader "Content-Type" "application/json; charset=utf-8";
   WriteHeader status;
   WriteJson (JObject [("result", result); ("error", error)])].

(** The events that act on the response writer. *)
Definition isWrite (ev : @Event Value) : bool :=
  match ev with
  | SetHeader _ _ | WriteHeader _ | WriteJson _ | WriteText _ => true
  | _ => false
  end.

Definition verbAllowed (s : @Server Value) (r : @Request Value) : bool :=
  existsb (String.eqb (reqMethod r)) (allowedMethods s).

(** The request after the intercept function, the request information
    after the before function, and the events of these two hooks. *)
Definition interceptedRequest (s : @Server Value) (r : @Request Value) (meth : string)
: Request :=
  match interceptFunc s with
  | Some f => match f (mkRequestInfo meth None r 0) with
              | Some req => req
              | None => r
              end
  | None => r
  end.

Definition hookInfo (s : @Server Value) (r : @Request Value) (meth : string)
: RequestInfo :=
  let info := mkRequestInfo meth None (interceptedRequest s r meth) 0 in
  match beforeFunc s with
  | Some f => f info
  | None => info
  end.

Definition hookEvents (s : @Server Value) (r : @Request Value) (meth : string)
: list (@Event Value) :=
  app (match interceptFunc s with
       | Some _ => [CallIntercept (mkRequestInfo meth None r 0)]
       | None => []
       end)
      (match beforeFunc s with
       | Some _ => [CallBefore (mkRequestInfo meth None (interceptedRequest s r meth) 0)]
       | None => []
       end).

Definition isCallMethod (ev : @Event Value) : bool :=
  match ev with
  | CallMethod _ _ _ _ => true
  | _ => false
  end.

Definition isAfter (ev : @Event Value) : bool :=
  match ev with
  | CallAfter _ => true
  | _ => false
  end.

Definition afterEvents (s : @Server Value) (meth : string) (errValue : option error)
  (r : @Request Value) : list (@Event Value) :=
  if afterFunc s
  then [CallAfter (mkRequestInfo meth errValue r
                     (match errValue with None => 200 | Some _ => 400 end))]
  else [].

(** The response the dispatcher writes for an outcome. *)
Definition response (errValue : option (@error Value)) (reply : Value)
  : list (@Event Value) :=
  SetHeader "x-content-type-options" "nosniff" ::
  match errValue with
  | None => writeResponse reply
  | Some e => writeError 400 e
  end.

(** A segment without a dot, a segment that begins with an ASCII byte, and
    a key that begins with a lower-case ASCII letter. *)
Fixpoint noDot (t : string) : bool :=
  match t with
  | EmptyString => true
  | String a t' => negb (Ascii.eqb a "."%char) && noDot t'
  end.

Definition asciiInitial (t : string) : bool :=
  match t with
  | EmptyString => false
  | String a _ => (byte a <? 128)%N
  end.

Definition startsLower (k : string) : bool :=
  match k with
  | EmptyString => false
  | String a _ => isLowerByte a
  end.

Definition isValidate (ev : @Event Value) : bool :=
  match ev with
  | CallValidate _ _ => true
  | _ => false
  end.

(** The request an event of a hook or of the method carries, for the hooks
    that are handed a fresh request information. *)
Definition carriesRequest (rq : @Request Value) (ev : @Event Value) : Prop :=
  match ev with
  | CallBefore i | CallAfter i => infoRequest i = rq
  | CallMethod _ _ rq' _ => rq' = rq
  | _ => True
  end.

End Notions.

(** ** The example program: [HelloService] with [Say] and [NoArgs]

    Values are given by their JSON image; [json.Marshal] rejects the
    value [None], as it rejects a channel or a function. *)

Module Hello.

Definition V : Type := option Json.

Definition zeroValue (t : GoType) : V := Some (JObject []).

Definition jsonUnmarshal (raw : Json) (t : GoType) (args : V) : V * option (@error V) :=
  match raw with
  | JObject _ => (Some raw, None)
  | _ => (args, Some (ErrorString "json: cannot unmarshal into Go value"))
  end.

Definition jsonMarshal (v : V) : @result V Json :=
  match v with
  | Some j => Ok j
  | None => Err (ErrorString "json: unsupported type")
  end.

Definition formatValue (v : V) : string := "value".

Definition HelloService : GoType := TStruct "main" "HelloService" [].
Definition HelloArgs : GoType := TStruct "main" "HelloArgs" [mkField "Who" EmptyString].
Definition HelloReply : GoType := TStruct "main" "HelloReply" [mkField "Message" EmptyString].

Definition who (args : option V) : string :=
  match args with
  | Some (Some (JObject (("who", JString w) :: _))) => w
  | _ => EmptyString
  end.

Definition Say : @reflectMethod V :=
  mkMethod "Say" EmptyString
    [TPtr HelloService; httpReqType; TPtr HelloArgs; TPtr HelloReply] [errorType]
    (fun _ args _ =>
       (Some (JObject [("message", JString ("Hello, " ++ who args ++ "!"))]), None)).

Definition NoArgs : @reflectMethod V :=
  mkMethod "NoArgs" EmptyString
    [TPtr HelloService; httpReqType; TPtr HelloReply] [errorType]
    (fun _ _ _ => (Some (JObject [("message", JString "Hello!")]), None)).

(** [&HelloService{}]; [reflect] lists methods in the order of their names. *)
Definition helloService : @Receiver V := mkReceiver "HelloService" [NoArgs; Say].

(** A receiver whose type has no method at all. *)
Definition emptyService : @Receiver V := mkReceiver "EmptyService" [].

Definition newServiceMap : @serviceMap V := mkServiceMap None.

(** [rpc.NewServer()] with the JSON codec registered, as [main] does. *)
Definition newServer (m : @serviceMap V) : @Server V :=
  mkServer {["application/json" := JSONCodec]} m None None false None
    ["POST"; "GET"; "DELETE"; "PUT"].

Definition registry : @serviceMap V := (register newServiceMap helloService EmptyString).1.

Definition serve := ServeHTTP zeroValue jsonUnmarshal jsonMarshal formatValue.

Definition getRequest (path : string) (form : gmap string (list string)) : @Request V :=
  mkRequest "GET" path EmptyString None form
    (BodyError (ErrorString "EOF")).

Definition postRequest (path : string) (body : @BodyDecode V) : @Request V :=
  mkRequest "POST" path "application/json" None ∅ body.

End Hello.

(** ** Further instances of the example program *)

(** The registry of the example of C2: the service registered under the
    explicit name [Helloservice]. *)
Definition helloserviceRegistry : @serviceMap Hello.V :=
  (register Hello.newServiceMap Hello.helloService "Helloservice").1.

(** C2, as stated, fails: [get] capitalizes the letter after a hyphen too,
    so a name resolves although nothing is registered under its segments
    with only the first letter capitalized. *)
Definition hyphenRegistry : @serviceMap Hello.V :=
  (register Hello.newServiceMap Hello.helloService "Hello-Service").1.

(** The example server with an after function registered, and with a
    validate function that rejects every request. *)
Definition observedServer : @Server Hello.V :=
  mkServer {["application/json" := JSONCodec]} Hello.registry None None true None
    ["POST"; "GET"; "DELETE"; "PUT"].

Definition rejectAll (i : @RequestInfo Hello.V) (args : Hello.V) : option (@error Hello.V) :=
  Some (ErrorString "rejected").

Definition validatingServer : @Server Hello.V :=
  mkServer {["application/json" := JSONCodec]} Hello.registry None None true (Some rejectAll)
    ["POST"; "GET"; "DELETE"; "PUT"].

Definition helloSvc : @service Hello.V :=
  mkService "HelloService" Hello.helloService (scanMethods (rcvrMethods Hello.helloService)).

Definition sayMethod : @serviceMethod Hello.V :=
  mkServiceMethod Hello.Say Hello.HelloArgs Hello.HelloReply false.

(** Requests and descriptors for the edges of the dispatcher. *)
Definition upperCaseJSONRequest : @Request Hello.V :=
  mkRequest "POST" "/rpc" "Application/JSON; charset=utf-8" None ∅
    (BodyRequest "HelloService.Say" None).

Definition xmlRequest : @Request Hello.V :=
  mkRequest "POST" "/rpc" "text/xml" None ∅ (BodyError (ErrorString "EOF")).

Definition unparsedRequest : @Request Hello.V :=
  mkRequest "POST" "/rpc" "application/json"
    (Some (ErrorString "invalid URL escape")) ∅ (BodyError (ErrorString "EOF")).

Definition lowerRegistry : @serviceMap Hello.V :=
  (register Hello.newServiceMap Hello.helloService "hello").1.

Definition noArgsMethod : @serviceMethod Hello.V :=
  mkServiceMethod Hello.NoArgs emptyStruct Hello.HelloReply true.

(** A method whose reply [json.Marshal] rejects. *)
Definition Broken : @reflectMethod Hello.V :=
  mkMethod "Broken" EmptyString
    [TPtr Hello.HelloService; httpReqType; TPtr Hello.HelloReply] [errorType]
    (fun _ _ _ => (None, None)).

Definition brokenMethod : @serviceMethod Hello.V :=
  mkServiceMethod Broken emptyStruct Hello.HelloReply true.

(** * Properties *)

(** ** Evaluation of the model on small inputs *)

Example Split_two : Split "helloservice.say" "." = ["helloservice"; "say"].
Proof. reflexivity. Qed.

Example Split_empty : Split EmptyString "." = [EmptyString].
Proof. reflexivity. Qed.

Example Trim_slashes : Trim "/rpc/" "/" = "rpc".
Proof. reflexivity. Qed.

Example Title_words : Title "hello-service" = "Hello-Service".
Proof. reflexivity. Qed.

Example Title_ident : Title "hello_service9x" = "Hello_service9x".
Proof. reflexivity. Qed.

Example hello_registered :
  (register Hello.newServiceMap Hello.helloService EmptyString).2 = None.
Proof. vm_compute. reflexivity. Qed.

Example hello_get_say :
  (Hello.serve (Hello.newServer Hello.registry)
     (Hello.getRequest "/rpc/HelloService.Say" {["who" := ["World"]]})).1
  = [CallMethod "HelloService" "Say"
       (Hello.getRequest "/rpc/HelloService.Say" {["who" := ["World"]]})
       (Some (Some (JObject [("who", JString "World")])));
     SetHeader "x-content-type-options" "nosniff";
     SetHeader "Content-Type" "application/json; charset=utf-8";
     WriteHeader 200;
     WriteJson (JObject [("result", JObject [("message", JString "Hello, World!")]);
                         ("error", JNull)])].
Proof. vm_compute. reflexivity. Qed.

(** ** The registry: [register] *)

Section RegisterProperties.

Context {Value : Type}.
Implicit Types (m : @serviceMap Value) (r : @Receiver Value) (nm : string).

Lemma checkOut_Some (meth : @reflectMethod Value) a b na :
  is_Some (checkOut meth a b na) ↔
  match methOut meth with
  | [o] => bool_decide (o = errorType)
  | _ => false
  end = true.
Proof.
  unfold checkOut.
  destruct (methOut meth) as [|o [|o' outs]]; simpl.
  - split; [intros [? ?]; discriminate | discriminate].
  - destruct (bool_decide (o = errorType));
      [split; eauto | split; [intros [? ?]; discriminate | discriminate]].
  - split; [intros [? ?]; discriminate | discriminate].
Qed.

Lemma scanMethod_qualifies (meth : @reflectMethod Value) :
  is_Some (scanMethod meth) ↔ qualifies meth = true.
Proof.
  unfold scanMethod, qualifies.
  destruct (isExported (methName meth)); simpl;
    [|split; [intros [? ?]; discriminate | discriminate]].
  destruct (bool_decide (methPkgPath meth = EmptyString)); simpl;
    [|split; [intros [? ?]; discriminate | discriminate]].
  destruct (methIn meth) as [|i0 [|i1 [|i2 [|i3 [|i4 ins]]]]]; simpl;
    try (split; [intros [? ?]; discriminate | discriminate]).
  - destruct (bool_decide (i1 = httpReqType)); simpl;
      [|split; [intros [? ?]; discriminate | discriminate]].
    destruct i2; simpl; try (split; [intros [? ?]; discriminate | discriminate]).
    destruct (isExportedOrBuiltin i2); simpl;
      [|split; [intros [? ?]; discriminate | discriminate]].
    apply checkOut_Some.
  - destruct (bool_decide (i1 = httpReqType)); simpl;
      [|split; [intros [? ?]; discriminate | discriminate]].
    destruct i2; simpl; try (split; [intros [? ?]; discriminate | discriminate]).
    destruct (isExportedOrBuiltin i2); simpl;
      [|split; [intros [? ?]; discriminate | discriminate]].
    destruct i3; simpl; try (split; [intros [? ?]; discriminate | discriminate]).
    destruct (isExportedOrBuiltin i3); simpl;
      [|split; [intros [? ?]; discriminate | discriminate]].
    apply checkOut_Some.
Qed.

Lemma scanMethods_fold_empty (ms : list (@reflectMethod Value))
    (acc : gmap string (@serviceMethod Value)) :
  foldl (fun (acc : gmap string (@serviceMethod Value)) meth =>
           match scanMethod meth with
           | Some sm => <[methName meth := sm]> acc
           | None => acc
           end) acc ms = ∅
  ↔ acc = ∅ ∧ Forall (fun meth => qualifies meth = false) ms.
Proof.
  revert acc. induction ms as [|meth ms IH]; intros acc; simpl.
  - split; [intros ->; split; [done | constructor] | intros [-> _]; done].
  - rewrite IH. pose proof (scanMethod_qualifies meth) as Hq.
    destruct (scanMethod meth) as [sm|] eqn:Hs.
    + split.
      * intros [Hins _]. exfalso.
        exact (insert_non_empty (M := gmap string) acc (methName meth) sm Hins).
      * intros [_ Hall]. inversion Hall as [|? ? Hf _]; subst.
        destruct Hq as [Hq _]. rewrite Hq in Hf by eauto. discriminate.
    + split.
      * intros [-> Hall]. split; [done|]. constructor; [|done].
        destruct (qualifies meth) eqn:Hqm; [|done].
        destruct Hq as [_ Hq]. destruct (Hq eq_refl) as [? ?]. discriminate.
      * intros [-> Hall]. inversion Hall; subst. done.
Qed.

Lemma scanMethods_empty (ms : list (@reflectMethod Value)) :
  scanMethods ms = ∅ ↔ Forall (fun meth => qualifies meth = false) ms.
Proof.
  unfold scanMethods. rewrite scanMethods_fold_empty.
  split; [intros [_ Hall]; exact Hall | intros Hall; split; [reflexivity | exact Hall]].
Qed.

Lemma size_zero_empty {A} (x : gmap string A) : size x = 0 ↔ x = ∅.
Proof. apply map_size_empty_iff. Qed.

(** The three errors of [register] have different texts. *)
Lemma errDuplicate_not_errNotExported (a b : string) :
  @errDuplicate Value a ≠ errNotExported b.
Proof. unfold errDuplicate, errNotExported. simpl. discriminate. Qed.

Lemma errNoMethods_not_errNotExported (a b : string) :
  @errNoMethods Value a ≠ errNotExported b.
Proof. unfold errNoMethods, errNotExported, quoted. simpl. discriminate. Qed.

Lemma errDuplicate_not_errNoMethods (a b : string) :
  @errDuplicate Value a ≠ errNoMethods b.
Proof. unfold errDuplicate, errNoMethods, quoted. simpl. discriminate. Qed.

(** [register] by cases, in the order of its checks. *)
Lemma register_not_exported m r :
  isExported (rcvrTypeName r) = false →
  register m r EmptyString = (m, Some (errNotExported (rcvrTypeName r))).
Proof.
  intros Hex. unfold register. simpl. rewrite Hex. reflexivity.
Qed.

Lemma register_checked m r nm :
  nm ≠ EmptyString ∨ isExported (rcvrTypeName r) = true →
  register m r nm =
    let sname := resolvedName r nm in
    if bool_decide (is_Some (entries m !! sname))
    then (m, Some (errDuplicate sname))
    else if bool_decide (scanMethods (rcvrMethods r) = ∅)
         then (mkServiceMap (Some (entries m)), Some (errNoMethods sname))
         else (mkServiceMap
                 (Some (<[sname := mkService sname r (scanMethods (rcvrMethods r))]>
                          (entries m))), None).
Proof.
  intros Hname. unfold register, resolvedName, entries. simpl.
  assert (bool_decide (nm = EmptyString)
          && negb (isExported (if bool_decide (nm ≠ EmptyString)
                               then nm else rcvrTypeName r)) = false) as ->.
  { destruct Hname as [Hnm|Hex].
    - rewrite (bool_decide_eq_false_2 _ Hnm). reflexivity.
    - destruct (decide (nm = EmptyString)) as [->|Hnm].
      + simpl. rewrite Hex. reflexivity.
      + rewrite (bool_decide_eq_false_2 _ Hnm). reflexivity. }
  set (sname := if bool_decide (nm ≠ EmptyString) then nm else rcvrTypeName r).
  assert (Hsz : bool_decide (size (scanMethods (rcvrMethods r)) = 0)
                = bool_decide (scanMethods (rcvrMethods r) = ∅)).
  { apply bool_decide_ext. apply size_zero_empty. }
  rewrite Hsz.
  destruct (services m) as [svcs|] eqn:Hsv; simpl.
  - reflexivity.
  - rewrite lookup_empty.
    rewrite (bool_decide_eq_false_2 (is_Some None)) by (intros [? ?]; discriminate).
    reflexivity.
Qed.

Lemma register_cases m r nm :
  (nm = EmptyString ∧ isExported (rcvrTypeName r) = false)
  ∨ (nm ≠ EmptyString ∨ isExported (rcvrTypeName r) = true).
Proof.
  destruct (decide (nm = EmptyString)) as [->|Hnm]; [|right; left; exact Hnm].
  destruct (isExported (rcvrTypeName r)); [right; right; reflexivity | left; done].
Qed.

(** C4 (amended): the name-not-exported error is returned exactly when the
    explicit name is empty and the receiver's type name does not start
    with an upper-case letter, and then the registry is returned as it
    was; a non-empty explicit name is taken as it is, whatever its first
    letter. *)
Theorem register_not_exported_iff m r nm :
  ((register m r nm).2 = Some (errNotExported (resolvedName r nm))
   ↔ nm = EmptyString ∧ isExported (rcvrTypeName r) = false)
  ∧ ((register m r nm).2 = Some (errNotExported (resolvedName r nm)) →
     (register m r nm).1 = m).
Proof.
  destruct (register_cases m r nm) as [[-> Hex]|Hname].
  - rewrite (register_not_exported m r Hex). unfold resolvedName. simpl.
    split; [split|]; [intros _; split; [reflexivity | exact Hex] | reflexivity | reflexivity].
  - assert (Hno : (register m r nm).2 ≠ Some (errNotExported (resolvedName r nm))).
    { rewrite (register_checked m r nm Hname). cbv zeta.
      destruct (bool_decide (is_Some (entries m !! resolvedName r nm))); cbn [snd].
      - intros He. apply (errDuplicate_not_errNotExported
                            (resolvedName r nm) (resolvedName r nm)).
        congruence.
      - destruct (bool_decide (scanMethods (rcvrMethods r) = ∅)); cbn [snd].
        + intros He. apply (errNoMethods_not_errNotExported
                              (resolvedName r nm) (resolvedName r nm)).
          congruence.
        + discriminate. }
    split; [split|]; [intros He; contradiction | | intros He; contradiction].
    intros [-> Hex]. destruct Hname as [Hnm|Hex']; [contradiction|].
    rewrite Hex in Hex'. discriminate.
Qed.

(** C8 (amended): once the name check has passed, [register] fails with
    the duplicate-service error whenever the resolved name is already in
    the registry, and, the name being free, fails with the
    no-suitable-methods error whenever none of the receiver's methods
    satisfies the qualification rules. *)
Theorem register_duplicate_then_no_methods m r nm :
  nm ≠ EmptyString ∨ isExported (rcvrTypeName r) = true →
  (is_Some (entries m !! resolvedName r nm) →
   (register m r nm).2 = Some (errDuplicate (resolvedName r nm)))
  ∧ (entries m !! resolvedName r nm = None →
     Forall (fun meth => qualifies meth = false) (rcvrMethods r) →
     (register m r nm).2 = Some (errNoMethods (resolvedName r nm))).
Proof.
  intros Hname. rewrite (register_checked m r nm Hname). cbv zeta. split.
  - intros Hin. rewrite (bool_decide_eq_true_2 _ Hin). reflexivity.
  - intros Hfree Hall.
    rewrite bool_decide_eq_false_2
      by (rewrite Hfree; intros [? ?]; discriminate).
    apply scanMethods_empty in Hall.
    rewrite (bool_decide_eq_true_2 _ Hall). reflexivity.
Qed.

(** C10: whenever [register] returns an error, which is then one of the
    three errors name not exported, duplicate service and no suitable
    methods, the registry afterwards has exactly the entries it had
    before the call. *)
Theorem register_failure_keeps_entries m r nm m' (e : error) :
  register m r nm = (m', Some e) →
  entries m' = entries m
  ∧ (e = errNotExported (resolvedName r nm)
     ∨ e = errDuplicate (resolvedName r nm)
     ∨ e = errNoMethods (resolvedName r nm)).
Proof.
  destruct (register_cases m r nm) as [[-> Hex]|Hname].
  - rewrite (register_not_exported m r Hex). intros [= <- <-].
    split; [reflexivity | left; reflexivity].
  - rewrite (register_checked m r nm Hname). cbv zeta.
    destruct (bool_decide (is_Some (entries m !! resolvedName r nm))).
    + intros [= <- <-]. split; [reflexivity | right; left; reflexivity].
    + destruct (bool_decide (scanMethods (rcvrMethods r) = ∅)).
      * intros [= <- <-]. split; [reflexivity | right; right; reflexivity].
      * discriminate.
Qed.

End RegisterProperties.

(** C4, as stated, fails: an explicit name that starts with a lower-case
    letter is registered without an error. *)
Lemma register_lower_case_name_accepted :
  isExported (resolvedName Hello.helloService "hello") = false
  ∧ (register Hello.newServiceMap Hello.helloService "hello").2 = None.
Proof. split; vm_compute; reflexivity. Qed.

(** C8, as stated, fails: a receiver without any qualifying method,
    registered under a name already taken, gets the duplicate-service
    error and not the no-suitable-methods error. *)
Lemma register_no_methods_under_taken_name :
  Forall (fun meth => qualifies meth = false) (rcvrMethods Hello.emptyService)
  ∧ (register Hello.registry Hello.emptyService "HelloService").2
    = Some (errDuplicate "HelloService")
  ∧ (register Hello.registry Hello.emptyService "HelloService").2
    ≠ Some (errNoMethods (resolvedName Hello.emptyService "HelloService")).
Proof.
  split; [constructor|]. split; [vm_compute; reflexivity|].
  vm_compute. discriminate.
Qed.

Lemma register_duplicate_then_no_methods_witness :
  (register Hello.registry Hello.helloService EmptyString).2
    = Some (errDuplicate "HelloService")
  ∧ (register Hello.newServiceMap Hello.emptyService EmptyString).2
    = Some (errNoMethods "EmptyService").
Proof.
  split.
  - apply (proj1 (register_duplicate_then_no_methods
                    Hello.registry Hello.helloService EmptyString
                    (or_intror eq_refl))).
    vm_compute. eexists. reflexivity.
  - apply (proj2 (register_duplicate_then_no_methods
                    Hello.newServiceMap Hello.emptyService EmptyString
                    (or_intror eq_refl))).
    + vm_compute. reflexivity.
    + constructor.
Defined.

Lemma register_failure_keeps_entries_witness :
  entries (mkServiceMap (Some ∅)) = entries Hello.newServiceMap
  ∧ (@errNoMethods Hello.V "EmptyService" = errNotExported "EmptyService"
     ∨ @errNoMethods Hello.V "EmptyService" = errDuplicate "EmptyService"
     ∨ @errNoMethods Hello.V "EmptyService" = errNoMethods "EmptyService").
Proof.
  apply (register_failure_keeps_entries
           Hello.newServiceMap Hello.emptyService EmptyString).
  vm_compute. reflexivity.
Defined.

(** ** The registry: [get] *)

Section GetProperties.

Context {Value : Type}.
Implicit Types (m : @serviceMap Value).

Lemma identByte_facts (a : ascii) :
  identByte a = true → isSeparator a = false ∧ Ascii.eqb a "."%char = false.
Proof.
  destruct a as [b0 b1 b2 b3 b4 b5 b6 b7].
  destruct b0, b1, b2, b3, b4, b5, b6, b7; vm_compute;
    intros H; first [discriminate H | split; reflexivity].
Qed.

Lemma titleFrom_inside (s : string) :
  identLike s = true → titleFrom false s = s.
Proof.
  induction s as [|a s IH]; simpl; [reflexivity|].
  intros [Ha Hs]%andb_prop.
  destruct (identByte_facts a Ha) as [-> _].
  rewrite (IH Hs). reflexivity.
Qed.

Lemma Title_identLike (s : string) :
  identLike s = true → Title s = capFirst s.
Proof.
  destruct s as [|a s]; simpl; [reflexivity|].
  intros [Ha Hs]%andb_prop. unfold Title. simpl.
  destruct (identByte_facts a Ha) as [-> _].
  rewrite (titleFrom_inside s Hs). reflexivity.
Qed.

Lemma Split_identLike (s : string) :
  identLike s = true → Split s "." = [s].
Proof.
  induction s as [|a s IH]; simpl; [reflexivity|].
  intros [Ha Hs]%andb_prop.
  destruct (identByte_facts a Ha) as [_ ->].
  rewrite (IH Hs). reflexivity.
Qed.

Lemma Split_dotted (s1 s2 : string) :
  identLike s1 = true → identLike s2 = true →
  Split (s1 ++ "." ++ s2) "." = [s1; s2].
Proof.
  intros H1 H2. induction s1 as [|a s1 IH].
  - change (Split (EmptyString ++ "." ++ s2) ".") with (EmptyString :: Split s2 ".").
    rewrite (Split_identLike s2 H2). reflexivity.
  - simpl in H1. apply andb_prop in H1 as [Ha Hs].
    change (Split (String a s1 ++ "." ++ s2) ".")
      with (if Ascii.eqb a "."%char then EmptyString :: Split (s1 ++ "." ++ s2) "."
            else match Split (s1 ++ "." ++ s2) "." with
                 | [] => [String a EmptyString]
                 | p :: ps => String a p :: ps
                 end).
    destruct (identByte_facts a Ha) as [_ ->].
    rewrite (IH Hs). reflexivity.
Qed.

(** C2 (amended): for a dotted name whose two segments are written with
    ASCII letters, digits and underscores, [get] capitalizes the first
    letter of each segment and leaves the rest unchanged: the name
    resolves to the descriptor registered under exactly these two
    capitalized segments, and fails when nothing is registered under
    them. *)
Theorem get_capitalizes_first_letters m (s1 s2 : string) svc sm :
  identLike s1 = true → identLike s2 = true →
  (get m (s1 ++ "." ++ s2) = Ok (svc, sm)
   ↔ entries m !! capFirst s1 = Some svc ∧ methods svc !! capFirst s2 = Some sm).
Proof.
  intros H1 H2. unfold get.
  rewrite (Split_dotted s1 s2 H1 H2).
  rewrite (Title_identLike s1 H1), (Title_identLike s2 H2).
  destruct (entries m !! capFirst s1) as [svc'|] eqn:Hsvc.
  - destruct (methods svc' !! capFirst s2) as [sm'|] eqn:Hsm.
    + split.
      * intros [= <- <-]. split; [reflexivity | exact Hsm].
      * intros [[= <-] Hm]. rewrite Hsm in Hm. injection Hm as <-. reflexivity.
    + split; [discriminate|].
      intros [[= <-] Hm]. rewrite Hsm in Hm. discriminate.
  - split; [discriminate | intros [? _]; discriminate].
Qed.

End GetProperties.

Lemma get_capitalizes_first_letters_witness :
  get helloserviceRegistry ("helloservice" ++ "." ++ "say")
  = Ok (mkService "Helloservice" Hello.helloService
          (scanMethods (rcvrMethods Hello.helloService)),
        mkServiceMethod Hello.Say Hello.HelloArgs Hello.HelloReply false).
Proof.
  apply (get_capitalizes_first_letters helloserviceRegistry "helloservice" "say");
    [reflexivity | reflexivity |].
  split; vm_compute; reflexivity.
Defined.

Lemma get_capitalizes_after_hyphen :
  Split "hello-service.say" "." = ["hello-service"; "say"]
  ∧ entries hyphenRegistry !! capFirst "hello-service" = None
  ∧ get hyphenRegistry "hello-service.say"
    = Ok (mkService "Hello-Service" Hello.helloService
            (scanMethods (rcvrMethods Hello.helloService)),
          mkServiceMethod Hello.Say Hello.HelloArgs Hello.HelloReply false).
Proof. repeat split; vm_compute; reflexivity. Qed.

(** ** The codec: where the method name comes from *)

Section CodecProperties.

Context {Value : Type}.
Implicit Types (r : @Request Value).

Lemma capitalizeMethod_empty : capitalizeMethod EmptyString = Ret EmptyString.
Proof. reflexivity. Qed.

Lemma extractMethodFromURL_urlName r :
  extractMethodFromURL r = capitalizeMethod (urlName r).
Proof.
  unfold extractMethodFromURL, urlName, prefixSource, lastSegmentSource, formSource.
  cbn [firstNonEmpty].
  destruct (HasPrefix (reqPath r) "/rpc/");
    destruct (last (Split (Trim (reqPath r) "/") "/")) as [seg|];
    unfold default, id;
    repeat case_bool_decide; simplify_eq; try reflexivity; try congruence.
  all: try match goal with
           | H : ?x = EmptyString |- _ => rewrite H in *
           end; try reflexivity; try congruence.
Qed.


End CodecProperties.



(** ** The codec: what it writes *)

Section WriteProperties.

Context {Value : Type}.
Variable jsonMarshal : Value -> @result Value Json.
Variable formatValue : Value -> string.

Local Abbreviation writeResponse := (WriteResponse jsonMarshal formatValue).
Local Abbreviation writeError := (WriteError jsonMarshal formatValue).

Lemma rpcWriteError_writes (status : Z) (msg : string) :
  forallb isWrite (@rpcWriteError Value status msg) = true.
Proof. reflexivity. Qed.

Lemma writeServerResponse_writes (status : Z) res :
  forallb isWrite (writeServerResponse jsonMarshal formatValue status res) = true.
Proof.
  unfold writeServerResponse. destruct (marshalResponse jsonMarshal res); reflexivity.
Qed.

Lemma WriteError_writes (status : Z) e : forallb isWrite (writeError status e) = true.
Proof. apply writeServerResponse_writes. Qed.

Lemma WriteResponse_writes reply : forallb isWrite (writeResponse reply) = true.
Proof. apply writeServerResponse_writes. Qed.

(** Whatever the error, [WriteError] sets the status 400. *)
Lemma WriteError_status (status : Z) e : In (WriteHeader 400) (writeError status e).
Proof.
  unfold WriteError, writeServerResponse.
  destruct (marshalResponse jsonMarshal _); simpl; auto.
Qed.

Lemma WriteResponse_status reply :
  ∃ status, In (WriteHeader status) (writeResponse reply).
Proof.
  unfold WriteResponse, writeServerResponse.
  destruct (marshalResponse jsonMarshal _); simpl; eauto.
Qed.

(** C9: when the reply marshals to [jr], [WriteResponse] writes the
    object of [result] = [jr] and [error] = null with status 200; when
    the value of the error marshals to [je], [WriteError] writes the object
    of [result] = null and [error] = [je] with status 400, whatever
    status it is passed; that value is the payload itself for a
    structured error and the message string for any other error. *)
Theorem codec_writes (reply : Value) (jr : Json) (status : Z) (e : error) (je : Json) :
  jsonMarshal reply = Ok jr →
  marshalIface jsonMarshal (errorValue e) = Ok je →
  writeResponse reply = jsonBody 200 jr JNull
  ∧ writeError status e = jsonBody 400 JNull je
  ∧ (∀ data, e = JsonError data → jsonMarshal data = Ok je)
  ∧ (∀ msg, e = ErrorString msg → je = JString msg).
Proof.
  intros Hr He. repeat split.
  - unfold WriteResponse, writeServerResponse, marshalResponse. simpl.
    rewrite Hr. reflexivity.
  - unfold WriteError, writeServerResponse, marshalResponse.
    destruct e as [msg|data]; simpl in *.
    + injection He as <-. reflexivity.
    + rewrite He. reflexivity.
  - intros data ->. exact He.
  - intros msg ->. simpl in He. injection He as <-. reflexivity.
Qed.

End WriteProperties.

Lemma codec_writes_witness :
  WriteResponse Hello.jsonMarshal Hello.formatValue
    (Some (JObject [("message", JString "Hello!")]))
  = jsonBody 200 (JObject [("message", JString "Hello!")]) JNull
  ∧ WriteError Hello.jsonMarshal Hello.formatValue 500 (ErrorString "boom")
    = jsonBody 400 JNull (JString "boom").
Proof.
  destruct (codec_writes Hello.jsonMarshal Hello.formatValue
              (Some (JObject [("message", JString "Hello!")]))
              (JObject [("message", JString "Hello!")])
              500 (ErrorString "boom") (JString "boom")
              eq_refl eq_refl) as (Hw & He & _).
  split; [exact Hw | exact He].
Defined.

(** ** The dispatcher *)

Section DispatchProperties.

Context {Value : Type}.
Variable zeroValue : GoType -> Value.
Variable jsonUnmarshal : Json -> GoType -> Value -> Value * option (@error Value).
Variable jsonMarshal : Value -> @result Value Json.
Variable formatValue : Value -> string.

Local Abbreviation serveHTTP := (ServeHTTP zeroValue jsonUnmarshal jsonMarshal formatValue).
Local Abbreviation dispatchTo := (dispatch zeroValue jsonUnmarshal jsonMarshal formatValue).
Local Abbreviation respond := (invokeAndRespond zeroValue jsonMarshal formatValue).
Local Abbreviation readRequest := (ReadRequest jsonUnmarshal).
Local Abbreviation writeError := (WriteError jsonMarshal formatValue).
Local Abbreviation writeResponse := (WriteResponse jsonMarshal formatValue).
Local Abbreviation responseOf := (response jsonMarshal formatValue).

Implicit Types (s : @Server Value) (r : @Request Value) (meth : string).

Lemma getNormalizedMethod_error s meth (e : error) :
  getNormalizedMethod s meth = Ret (Err e) → e = errMethodNotFound meth.
Proof.
  unfold getNormalizedMethod.
  destruct (get (srvServices s) meth); [discriminate|].
  destruct (capitalizeMethod meth) as [c|]; [|discriminate]. cbn [go_bind].
  destruct (bool_decide (c ≠ meth)).
  - destruct (get (srvServices s) c); [discriminate|]. intros [= <-]. reflexivity.
  - intros [= <-]. reflexivity.
Qed.

Lemma pathMethod_prefixed s r meth :
  reqPath r = "/rpc/" ++ meth → meth ≠ EmptyString →
  pathMethod s r = getNormalizedMethod s meth.
Proof.
  intros Hpath Hne. unfold pathMethod. rewrite Hpath.
  change (HasPrefix ("/rpc/" ++ meth) "/rpc/") with (String.prefix EmptyString meth).
  change (TrimPrefix ("/rpc/" ++ meth) "/rpc/")
    with (if String.prefix EmptyString meth then meth else "/rpc/" ++ meth).
  assert (String.prefix EmptyString meth = true) as -> by (destruct meth; reflexivity).
  rewrite (bool_decide_eq_true_2 _ Hne). reflexivity.
Qed.

Lemma pathMethod_none s r :
  prefixSource r = EmptyString → pathMethod s r = Ret (Ok EmptyString).
Proof.
  unfold prefixSource, pathMethod.
  destruct (HasPrefix (reqPath r) "/rpc/"); [|reflexivity].
  intros ->. reflexivity.
Qed.

(** Where [getNormalizedMethod] returns its error, the name taken from a
    path [/rpc/<name>] is answered with status 404 and the text of the
    lookup error, which names it; the name obtained through the codec
    (body or query string) is answered with status 400 by the codec,
    the same text being the [error] member of the body. *)
Theorem lookup_miss_status s r meth (e : error) :
  verbAllowed s r = true →
  getNormalizedMethod s meth = Ret (Err e) →
  (reqPath r = "/rpc/" ++ meth → meth ≠ EmptyString →
   serveHTTP s r =
     returns [SetHeader "Content-Type" "text/plain; charset=utf-8";
              WriteHeader 404;
              WriteText ("rpc: method not found: " ++ meth)])
  ∧ (prefixSource r = EmptyString →
     selectCodec s r = Chosen (Some JSONCodec) →
     codecMethod r = Ret (Ok meth) →
     serveHTTP s r =
       returns (jsonBody 400 JNull (JString ("rpc: method not found: " ++ meth)))).
Proof.
  intros Hverb Hmiss.
  pose proof (getNormalizedMethod_error s meth e Hmiss) as ->.
  unfold verbAllowed in Hverb. split.
  - intros Hpath Hne. unfold ServeHTTP. rewrite Hverb. cbn [negb].
    rewrite (pathMethod_prefixed s r meth Hpath Hne), Hmiss. reflexivity.
  - intros Hnone Hcodec Hcm. unfold ServeHTTP. rewrite Hverb. cbn [negb].
    rewrite (pathMethod_none s r Hnone). cbn [run_bind]. rewrite Hcodec.
    unfold codecMethod in Hcm.
    destruct (NewRequest r) as [[c r']|]; [|discriminate]. cbn [go_bind fst] in Hcm.
    cbn [run_bind].
    rewrite (bool_decide_eq_false_2 (EmptyString ≠ EmptyString)) by tauto.
    rewrite Hcm. cbn [run_bind]. rewrite Hmiss. reflexivity.
Qed.


(** *** The hook chain *)

Local Abbreviation calls := (callStage zeroValue).

Lemma hookEvents_no_call s r meth :
  forallb (fun ev => negb (isCallMethod ev)) (hookEvents s r meth) = true.
Proof.
  unfold hookEvents. destruct (interceptFunc s), (beforeFunc s); reflexivity.
Qed.

Lemma writes_no_call (l : list (@Event Value)) :
  forallb isWrite l = true → forallb (fun ev => negb (isCallMethod ev)) l = true.
Proof.
  induction l as [|ev l IH]; [reflexivity|]. simpl.
  intros [Hev Hl]%andb_prop. rewrite (IH Hl). destruct ev; try discriminate; reflexivity.
Qed.

Lemma writes_no_after (l : list (@Event Value)) :
  forallb isWrite l = true → forallb (fun ev => negb (isAfter ev)) l = true.
Proof.
  induction l as [|ev l IH]; [reflexivity|]. simpl.
  intros [Hev Hl]%andb_prop. rewrite (IH Hl). destruct ev; try discriminate; reflexivity.
Qed.

Lemma callStage_validated s r meth svc ms (args : Value) f :
  validateFunc s = Some f → noArgs ms = false →
  calls s r meth svc ms args =
    match f (hookInfo s r meth) args with
    | Some e =>
        (app (hookEvents s r meth) [CallValidate (hookInfo s r meth) args],
         interceptedRequest s r meth, zeroValue (replyType ms), Some e)
    | None =>
        let out := methFunc (method ms) (interceptedRequest s r meth) (Some args)
                     (zeroValue (replyType ms)) in
        (app (hookEvents s r meth)
           [CallValidate (hookInfo s r meth) args;
            CallMethod (name svc) (methName (method ms))
              (interceptedRequest s r meth) (Some args)],
         interceptedRequest s r meth, out.1, out.2)
    end.
Proof.
  intros Hv Hargs.
  unfold callStage, hookInfo, hookEvents, interceptedRequest.
  rewrite Hv, Hargs. cbn [negb].
  destruct (interceptFunc s) as [fi|], (beforeFunc s) as [fb|];
    repeat case_match; simplify_eq; reflexivity.
Qed.

Lemma callStage_no_after s r meth svc ms (args : Value) :
  forallb (fun ev => negb (isAfter ev)) (calls s r meth svc ms args).1.1.1 = true.
Proof.
  unfold callStage.
  destruct (interceptFunc s) as [fi|], (beforeFunc s) as [fb|];
    repeat case_match; simplify_eq; reflexivity.
Qed.

(** C6: with a validate function registered and a method that takes
    arguments, the validate function is called with the request
    information and the decoded arguments, after the intercept and before
    functions and before any call of the method.  When it returns an
    error the method is not called: the reply is still the zero value,
    the error is the outcome, and the codec writes it with status 400. *)
Theorem validate_short_circuits s r meth svc ms (args : Value) f :
  validateFunc s = Some f →
  noArgs ms = false →
  (∃ rest, (respond s r meth svc ms args).1
           = app (hookEvents s r meth) (CallValidate (hookInfo s r meth) args :: rest))
  ∧ forallb (fun ev => negb (isCallMethod ev)) (hookEvents s r meth) = true
  ∧ (∀ e, f (hookInfo s r meth) args = Some e →
       calls s r meth svc ms args
       = (app (hookEvents s r meth) [CallValidate (hookInfo s r meth) args],
          interceptedRequest s r meth, zeroValue (replyType ms), Some e)
       ∧ respond s r meth svc ms args
         = returns (app (hookEvents s r meth)
                      (CallValidate (hookInfo s r meth) args
                       :: SetHeader "x-content-type-options" "nosniff"
                       :: app (writeError 400 e)
                            (afterEvents s meth (Some e) (interceptedRequest s r meth))))
       ∧ forallb (fun ev => negb (isCallMethod ev)) (respond s r meth svc ms args).1 = true
       ∧ In (WriteHeader 400) (respond s r meth svc ms args).1).
Proof.
  intros Hv Hargs.
  pose proof (callStage_validated s r meth svc ms args f Hv Hargs) as Hcalls.
  split; [|split; [apply hookEvents_no_call|]].
  - unfold invokeAndRespond. rewrite Hcalls.
    destruct (f (hookInfo s r meth) args) as [e|]; cbv zeta.
    + eexists. cbn [returns fst]. rewrite <- app_assoc. reflexivity.
    + eexists. cbn [returns fst]. rewrite <- app_assoc. reflexivity.
  - intros e He. rewrite He in Hcalls.
    assert (Hrun : respond s r meth svc ms args
                   = returns (app (hookEvents s r meth)
                                (CallValidate (hookInfo s r meth) args
                                 :: SetHeader "x-content-type-options" "nosniff"
                                 :: app (writeError 400 e)
                                      (afterEvents s meth (Some e)
                                         (interceptedRequest s r meth))))).
    { unfold invokeAndRespond. rewrite Hcalls. unfold afterEvents, returns.
      rewrite <- app_assoc. reflexivity. }
    split; [exact Hcalls|]. split; [exact Hrun|]. rewrite Hrun. cbn [returns fst]. split.
    + rewrite forallb_app, hookEvents_no_call. cbn [forallb isCallMethod negb andb].
      rewrite forallb_app, (writes_no_call _ (WriteError_writes _ _ _ _)).
      unfold afterEvents. destruct (afterFunc s); reflexivity.
    + apply in_or_app. right. right. right. apply in_or_app. left.
      apply WriteError_status.
Qed.

(** *** The after function *)

Lemma dispatch_shape s r (c : CodecRequest) meth :
  forallb isWrite (dispatchTo s r c meth).1 = true
  ∨ ∃ svc ms args,
      get (srvServices s) meth = Ok (svc, ms)
      ∧ dispatchTo s r c meth = respond s r meth svc ms args.
Proof.
  unfold dispatch.
  destruct (get (srvServices s) meth) as [[svc ms]|e] eqn:Hget.
  - destruct (decodeArgs zeroValue jsonUnmarshal c ms) as [[args|e]|]; cbn [run_bind].
    + right. exists svc, ms, args. split; reflexivity.
    + left. apply WriteError_writes.
    + left. reflexivity.
  - left. apply WriteError_writes.
Qed.

Lemma getNormalizedMethod_resolves s meth (n : string) :
  getNormalizedMethod s meth = Ret (Ok n) →
  ∃ svc ms, get (srvServices s) n = Ok (svc, ms).
Proof.
  unfold getNormalizedMethod.
  destruct (get (srvServices s) meth) as [[svc ms]|e] eqn:Hget.
  - intros [= <-]. eauto.
  - destruct (capitalizeMethod meth) as [c|]; [|discriminate]. cbn [go_bind].
    destruct (bool_decide (c ≠ meth)); [|discriminate].
    destruct (get (srvServices s) c) as [[svc ms]|e'] eqn:Hget'; [|discriminate].
    intros [= <-]. eauto.
Qed.

Lemma ServeHTTP_shape s r :
  forallb isWrite (serveHTTP s r).1 = true
  ∨ ∃ r' meth svc ms args,
      get (srvServices s) meth = Ok (svc, ms)
      ∧ serveHTTP s r = respond s r' meth svc ms args.
Proof.
  unfold ServeHTTP.
  destruct (negb (existsb (String.eqb (reqMethod r)) (allowedMethods s)));
    [left; reflexivity|].
  destruct (pathMethod s r) as [[pm|e]|]; cbn [run_bind];
    [|left; reflexivity|left; reflexivity].
  destruct (selectCodec s r) as [[[]|]|ct]; [|left; reflexivity|left; reflexivity].
  destruct (NewRequest r) as [[c r']|]; cbn [run_bind]; [|left; reflexivity].
  destruct (bool_decide (pm ≠ EmptyString)).
  - destruct (dispatch_shape s r' c pm) as [Hw|(svc & ms & args & Hget & Hrun)];
      [left; exact Hw|].
    right. exists r', pm, svc, ms, args. split; assumption.
  - destruct (Method c) as [[m|e]|]; cbn [run_bind];
      [|left; apply WriteError_writes|left; reflexivity].
    destruct (getNormalizedMethod s m) as [[n|e]|]; cbn [run_bind];
      [|left; apply WriteError_writes|left; reflexivity].
    destruct (dispatch_shape s r' c n) as [Hw|(svc & ms & args & Hget & Hrun)];
      [left; exact Hw|].
    right. exists r', n, svc, ms, args. split; assumption.
Qed.

Lemma no_after_filter (l : list (@Event Value)) :
  forallb (fun ev => negb (isAfter ev)) l = true → List.filter isAfter l = [].
Proof.
  induction l as [|ev l IH]; [reflexivity|]. simpl.
  intros [Hev Hl]%andb_prop. destruct (isAfter ev); [discriminate|]. exact (IH Hl).
Qed.

Lemma response_writes errValue reply : forallb isWrite (responseOf errValue reply) = true.
Proof.
  unfold response. cbn [forallb isWrite andb].
  destruct errValue; [apply WriteError_writes | apply WriteResponse_writes].
Qed.

(** Once a request has reached the hook chain, and an after function is
    registered, the after function is called exactly once, as the last
    event, after the response has been written, also when the call
    returned an error.  It receives the method name, the error of the call
    (nil on success) and the status 200 on success and 400 on error, which
    is the status written whenever the reply could be marshalled. *)
Lemma pipeline_calls_after_once s r meth svc ms (args : Value) :
  afterFunc s = true →
  ∃ evs reply info,
    calls s r meth svc ms args = (evs, infoRequest info, reply, infoError info)
    ∧ infoMethod info = meth
    ∧ infoStatusCode info = match infoError info with None => 200%Z | Some _ => 400%Z end
    ∧ respond s r meth svc ms args
      = returns (app evs (app (responseOf (infoError info) reply) [CallAfter info]))
    ∧ forallb (fun ev => negb (isAfter ev))
        (app evs (responseOf (infoError info) reply)) = true
    ∧ (∃ status, In (WriteHeader status) (responseOf (infoError info) reply))
    ∧ (is_Some (infoError info) ∨ (∃ j, jsonMarshal reply = Ok j) →
       In (WriteHeader (infoStatusCode info)) (responseOf (infoError info) reply))
    ∧ length (List.filter isAfter (respond s r meth svc ms args).1) = 1.
Proof.
  intros Hafter. unfold invokeAndRespond.
  pose proof (callStage_no_after s r meth svc ms args) as Hna.
  destruct (calls s r meth svc ms args) as [[[evs r1] reply] errValue] eqn:Hcalls.
  cbn [fst] in Hna. rewrite Hafter.
  exists evs, reply,
    (mkRequestInfo meth errValue r1 (match errValue with None => 200%Z | Some _ => 400%Z end)).
  cbn [infoMethod infoError infoRequest infoStatusCode].
  assert (Hnr : forallb (fun ev => negb (isAfter ev)) (app evs (responseOf errValue reply))
                = true).
  { rewrite forallb_app, Hna. apply writes_no_after, response_writes. }
  split; [reflexivity|]. split; [reflexivity|]. split; [reflexivity|].
  split.
  { unfold response. destruct errValue; reflexivity. }
  split; [exact Hnr|]. split.
  { unfold response. destruct errValue as [e|].
    - exists 400%Z. right. apply WriteError_status.
    - destruct (WriteResponse_status jsonMarshal formatValue reply) as [st Hst].
      exists st. right. exact Hst. }
  split.
  { unfold response. destruct errValue as [e|].
    - intros _. right. apply WriteError_status.
    - intros [[? Hs]|[j Hj]]; [discriminate|]. right.
      unfold WriteResponse, writeServerResponse, marshalResponse. simpl.
      rewrite Hj. simpl. auto. }
  cbn [returns fst].
  replace (app evs
             (app (SetHeader "x-content-type-options" "nosniff"
                   :: match errValue with
                      | Some errResult =>
                          writeError (match errValue with None => 200%Z | Some _ => 400%Z end)
                            errResult
                      | None => writeResponse reply
                      end)
                [CallAfter (mkRequestInfo meth errValue r1
                              (match errValue with None => 200%Z | Some _ => 400%Z end))]))
    with (app (app evs (responseOf errValue reply))
            [CallAfter (mkRequestInfo meth errValue r1
                          (match errValue with None => 200%Z | Some _ => 400%Z end))]).
  - rewrite List.filter_app, (no_after_filter _ Hnr). reflexivity.
  - rewrite <- app_assoc. unfold response. destruct errValue; reflexivity.
Qed.

End DispatchProperties.

(** ** The theorems of the dispatcher on the example program *)

Lemma lookup_miss_status_witness :
  Hello.serve (Hello.newServer Hello.registry)
    (Hello.getRequest "/rpc/HelloService.Missing" ∅)
  = returns [SetHeader "Content-Type" "text/plain; charset=utf-8";
             WriteHeader 404;
             WriteText "rpc: method not found: HelloService.Missing"]
  ∧ Hello.serve (Hello.newServer Hello.registry)
      (Hello.postRequest "/rpc" (BodyRequest "HelloService.Missing" None))
    = returns (jsonBody 400 JNull (JString "rpc: method not found: HelloService.Missing")).
Proof.
  split.
  - apply (proj1 (lookup_miss_status Hello.zeroValue Hello.jsonUnmarshal
                    Hello.jsonMarshal Hello.formatValue
                    (Hello.newServer Hello.registry)
                    (Hello.getRequest "/rpc/HelloService.Missing" ∅)
                    "HelloService.Missing"
                    (errMethodNotFound "HelloService.Missing")
                    eq_refl ltac:(vm_compute; reflexivity)));
      [reflexivity | discriminate].
  - apply (proj2 (lookup_miss_status Hello.zeroValue Hello.jsonUnmarshal
                    Hello.jsonMarshal Hello.formatValue
                    (Hello.newServer Hello.registry)
                    (Hello.postRequest "/rpc" (BodyRequest "HelloService.Missing" None))
                    "HelloService.Missing"
                    (errMethodNotFound "HelloService.Missing")
                    eq_refl ltac:(vm_compute; reflexivity)));
      vm_compute; reflexivity.
Defined.


Lemma validate_short_circuits_witness :
  forallb (fun ev => negb (isCallMethod ev))
    (invokeAndRespond Hello.zeroValue Hello.jsonMarshal Hello.formatValue validatingServer
       (Hello.getRequest "/rpc/HelloService.Say" ∅) "HelloService.Say"
       helloSvc sayMethod (Some (JObject []))).1 = true
  ∧ In (WriteHeader 400)
      (invokeAndRespond Hello.zeroValue Hello.jsonMarshal Hello.formatValue validatingServer
         (Hello.getRequest "/rpc/HelloService.Say" ∅) "HelloService.Say"
         helloSvc sayMethod (Some (JObject []))).1.
Proof.
  destruct (validate_short_circuits Hello.zeroValue Hello.jsonMarshal Hello.formatValue
              validatingServer (Hello.getRequest "/rpc/HelloService.Say" ∅)
              "HelloService.Say" helloSvc sayMethod (Some (JObject [])) rejectAll
              eq_refl eq_refl) as (_ & _ & Herr).
  destruct (Herr (ErrorString "rejected") eq_refl) as (_ & _ & Hno & Hst).
  split; [exact Hno | exact Hst].
Defined.

Example after_called_once_on_success :
  length (List.filter isAfter
            (Hello.serve observedServer
               (Hello.getRequest "/rpc/HelloService.Say" {["who" := ["World"]]})).1) = 1.
Proof. vm_compute. reflexivity. Qed.

(** C7: the code at a request for an unknown method, with an after
    function registered: [ServeHTTP] answers with status 400 and returns
    without calling the after function, which [RegisterAfterFunc] documents
    as called after every request. *)
Lemma after_hook_skipped_on_early_answer :
  afterFunc observedServer = true
  ∧ Hello.serve observedServer
      (Hello.postRequest "/rpc" (BodyRequest "HelloService.Missing" None))
    = returns (jsonBody 400 JNull (JString "rpc: method not found: HelloService.Missing"))
  ∧ length (List.filter isAfter
              (Hello.serve observedServer
                 (Hello.postRequest "/rpc" (BodyRequest "HelloService.Missing" None))).1) = 0.
Proof. repeat split; vm_compute; reflexivity. Qed.

(** C3: the code at an unknown method name with an empty segment: the
    lookup misses, and [ServeHTTP] then panics in the capitalization of
    the name, in the path [/rpc/.say] as well as in the body of a POST,
    so that neither status 404 nor status 400 is written. *)
Lemma lookup_miss_with_empty_segment_panics :
  get Hello.registry ".say" = Err (ErrorString "rpc: can't find service ")
  ∧ Hello.serve (Hello.newServer Hello.registry) (Hello.getRequest "/rpc/.say" ∅)
    = ([], Panicked)
  ∧ Hello.serve (Hello.newServer Hello.registry)
      (Hello.postRequest "/rpc" (BodyRequest ".say" None))
    = ([], Panicked).
Proof. repeat split; vm_compute; reflexivity. Qed.

(** ** Configuring the server: verbs and codecs *)

Section ConfigurationProperties.

Context {Value : Type}.
Variable zeroValue : GoType -> Value.
Variable jsonUnmarshal : Json -> GoType -> Value -> Value * option (@error Value).
Variable jsonMarshal : Value -> @result Value Json.
Variable formatValue : Value -> string.

Local Abbreviation serveHTTP := (ServeHTTP zeroValue jsonUnmarshal jsonMarshal formatValue).

Implicit Types (s : @Server Value) (r : @Request Value).

Lemma existsb_removed (v : string) (l : list string) :
  existsb (String.eqb v) (List.filter (fun m => negb (String.eqb m v)) l) = false.
Proof.
  induction l as [|m l IH]; [reflexivity|]. simpl.
  destruct (String.eqb m v) eqn:Hm; simpl; [exact IH|].
  rewrite String.eqb_sym, Hm. exact IH.
Qed.

Lemma existsb_kept (v w : string) (l : list string) :
  w ≠ v →
  existsb (String.eqb w) (List.filter (fun m => negb (String.eqb m v)) l)
  = existsb (String.eqb w) l.
Proof.
  intros Hne. induction l as [|m l IH]; [reflexivity|]. simpl.
  destruct (String.eqb m v) eqn:Hm; simpl.
  - apply String.eqb_eq in Hm. subst m.
    rewrite (proj2 (String.eqb_neq w v) Hne). exact IH.
  - rewrite IH. reflexivity.
Qed.

(** X1: After [removeMethod] (so after [DisableGET], [DisablePOST],
    [DisablePUT], [DisableDelete]) a request with the removed verb is
    answered with status 405 and a text that lists the verbs left; nothing
    else happens. *)
Theorem removed_verb_is_rejected s r (v : string) :
  reqMethod r = v →
  serveHTTP (removeMethod s v) r =
    returns
      [SetHeader "Content-Type" "text/plain; charset=utf-8";
       WriteHeader 405;
       WriteText ("rpc: only "
                  ++ Join (List.filter (fun m => negb (String.eqb m v)) (allowedMethods s)) ","
                  ++ " methods are allowed, received " ++ v)].
Proof.
  intros Hv. unfold ServeHTTP. cbn [allowedMethods removeMethod].
  rewrite Hv, existsb_removed. cbn [negb]. unfold errNotAllowed.
  cbn [allowedMethods removeMethod]. rewrite Hv. reflexivity.
Qed.

(** X2: Removing a verb changes nothing for a request with another verb that
    was allowed. *)
Theorem other_verbs_unaffected s r (v : string) :
  reqMethod r ≠ v →
  verbAllowed s r = true →
  serveHTTP (removeMethod s v) r = serveHTTP s r.
Proof.
  intros Hne Hallowed. unfold verbAllowed in Hallowed. unfold ServeHTTP.
  cbn [allowedMethods removeMethod].
  rewrite (existsb_kept v (reqMethod r) (allowedMethods s) Hne), Hallowed.
  reflexivity.
Qed.

Lemma anyCodec_nonempty s : codecs s ≠ ∅ → anyCodec s = Some JSONCodec.
Proof.
  intros Hne. unfold anyCodec.
  destruct (map_to_list (codecs s)) as [|[k []] l] eqn:Hl; [|reflexivity].
  apply map_to_list_empty_iff in Hl. contradiction.
Qed.

Lemma anyCodec_empty s : codecs s = ∅ → anyCodec s = None.
Proof. intros He. unfold anyCodec. rewrite He, map_to_list_empty. reflexivity. Qed.

Lemma size_one_nonempty s : size (codecs s) = 1 → codecs s ≠ ∅.
Proof. intros Hs He. rewrite He, map_size_empty in Hs. discriminate. Qed.

Lemma selectCodec_GET s r :
  reqMethod r = "GET" →
  selectCodec s r = Chosen (if bool_decide (codecs s = ∅) then None else Some JSONCodec).
Proof.
  intros Hget. unfold selectCodec. rewrite Hget.
  rewrite (bool_decide_eq_true_2 ("GET" = "GET")) by reflexivity.
  destruct (decide (codecs s = ∅)) as [He|Hne].
  - rewrite (bool_decide_eq_true_2 _ He).
    rewrite bool_decide_eq_false_2 by (rewrite He, map_size_empty; discriminate).
    rewrite He at 1. rewrite lookup_empty. rewrite (anyCodec_empty s He). reflexivity.
  - rewrite (bool_decide_eq_false_2 _ Hne).
    destruct (bool_decide (size (codecs s) = 1)).
    + rewrite (anyCodec_nonempty s Hne). reflexivity.
    + destruct (codecs s !! "application/json") as [[]|]; [reflexivity|].
      rewrite (anyCodec_nonempty s Hne). reflexivity.
Qed.

(** X3: For a GET request the Content-Type header plays no part: a codec is
    chosen whenever the table has one, and none (the nil codec) when the
    table is empty; the choice is never that of an unrecognized content
    type. *)
Theorem get_ignores_content_type s r :
  reqMethod r = "GET" →
  selectCodec s r = Chosen (if bool_decide (codecs s = ∅) then None else Some JSONCodec).
Proof. exact (selectCodec_GET s r). Qed.

(** X4: With no codec registered, a GET request with an allowed verb and no
    method name in its path makes [ServeHTTP] panic on the nil codec,
    before anything is written. *)
Theorem get_without_codec_panics s r :
  reqMethod r = "GET" →
  verbAllowed s r = true →
  prefixSource r = EmptyString →
  codecs s = ∅ →
  serveHTTP s r = panics.
Proof.
  intros Hget Hallowed Hnone He. unfold verbAllowed in Hallowed. unfold ServeHTTP.
  rewrite Hallowed. cbn [negb].
  unfold pathMethod. unfold prefixSource in Hnone.
  destruct (HasPrefix (reqPath r) "/rpc/").
  - rewrite Hnone. cbn [run_bind].
    rewrite (selectCodec_GET s r Hget), (bool_decide_eq_true_2 _ He). reflexivity.
  - cbn [run_bind].
    rewrite (selectCodec_GET s r Hget), (bool_decide_eq_true_2 _ He). reflexivity.
Qed.

Lemma ToLower_idempotent (t : string) : ToLower (ToLower t) = ToLower t.
Proof.
  induction t as [|a t IH]; [reflexivity|]. simpl. rewrite IH. f_equal.
  destruct a as [b0 b1 b2 b3 b4 b5 b6 b7].
  destruct b0, b1, b2, b3, b4, b5, b6, b7; reflexivity.
Qed.

(** X5: A codec registered for a content type is the one chosen for every
    request with another verb than GET whose Content-Type header names
    that type, in whatever letter case and with or without parameters
    after a semicolon. *)
Theorem registered_codec_is_selected s r (contentType : string) :
  reqMethod r ≠ "GET" →
  ToLower (cutAt (reqContentType r) ";") = ToLower contentType →
  selectCodec (RegisterCodec s JSONCodec contentType) r = Chosen (Some JSONCodec).
Proof.
  intros Hverb Hct. unfold selectCodec.
  rewrite (bool_decide_eq_false_2 _ Hverb).
  assert (Hne : codecs (RegisterCodec s JSONCodec contentType) ≠ ∅).
  { cbn [codecs RegisterCodec]. apply insert_non_empty. }
  destruct (bool_decide (cutAt (reqContentType r) ";" = EmptyString)
            && bool_decide (size (codecs (RegisterCodec s JSONCodec contentType)) = 1)).
  - rewrite (anyCodec_nonempty _ Hne). reflexivity.
  - cbn [codecs RegisterCodec]. rewrite Hct, lookup_insert_eq. reflexivity.
Qed.

(** X6: A request with another verb than GET, no method name in its path and a
    Content-Type for which no codec is registered is answered with status
    415 and a text naming the content type as the header gave it, cut at
    the semicolon; an empty content type is excused only when exactly one
    codec is registered. *)
Theorem unknown_content_type_rejected s r :
  verbAllowed s r = true →
  reqMethod r ≠ "GET" →
  prefixSource r = EmptyString →
  codecs s !! ToLower (cutAt (reqContentType r) ";") = None →
  ¬ (cutAt (reqContentType r) ";" = EmptyString ∧ size (codecs s) = 1) →
  serveHTTP s r =
    returns
      [SetHeader "Content-Type" "text/plain; charset=utf-8";
       WriteHeader 415;
       WriteText ("rpc: unrecognized Content-Type: " ++ cutAt (reqContentType r) ";")].
Proof.
  intros Hallowed Hverb Hnone Hlookup Hexcuse.
  unfold verbAllowed in Hallowed. unfold ServeHTTP. rewrite Hallowed. cbn [negb].
  assert (Hpath : pathMethod s r = Ret (Ok EmptyString)).
  { unfold pathMethod. unfold prefixSource in Hnone.
    destruct (HasPrefix (reqPath r) "/rpc/"); [rewrite Hnone|]; reflexivity. }
  rewrite Hpath. cbn [run_bind]. unfold selectCodec.
  rewrite (bool_decide_eq_false_2 _ Hverb).
  assert (bool_decide (cutAt (reqContentType r) ";" = EmptyString)
          && bool_decide (size (codecs s) = 1) = false) as ->.
  { apply andb_false_iff.
    destruct (decide (cutAt (reqContentType r) ";" = EmptyString)) as [He|Hne];
      [|left; exact (bool_decide_eq_false_2 _ Hne)].
    right. apply bool_decide_eq_false_2. intros Hs. apply Hexcuse. split; assumption. }
  rewrite Hlookup. reflexivity.
Qed.

End ConfigurationProperties.

(** ** Method names: normalization and lookup *)

Section NameProperties.

Context {Value : Type}.
Variable zeroValue : GoType -> Value.
Variable jsonUnmarshal : Json -> GoType -> Value -> Value * option (@error Value).
Variable jsonMarshal : Value -> @result Value Json.
Variable formatValue : Value -> string.

Local Abbreviation serveHTTP := (ServeHTTP zeroValue jsonUnmarshal jsonMarshal formatValue).
Local Abbreviation dispatchTo := (dispatch zeroValue jsonUnmarshal jsonMarshal formatValue).

Implicit Types (m : @serviceMap Value) (s : @Server Value) (r : @Request Value).

Lemma Split_nonempty (t : string) : Split t "." ≠ [].
Proof.
  destruct t as [|a t]; simpl; [discriminate|].
  destruct (Ascii.eqb a "."); [discriminate|].
  destruct (Split t "."); discriminate.
Qed.

Lemma Split_single (t p : string) :
  Split t "." = [p] → t = p ∧ noDot t = true.
Proof.
  revert p. induction t as [|a t IH]; intros p; simpl.
  - intros [= <-]. split; reflexivity.
  - destruct (Ascii.eqb a ".") eqn:Ha.
    + intros [= _ Hrest]. exfalso. exact (Split_nonempty t Hrest).
    + destruct (Split t ".") as [|q qs] eqn:Hs; [exfalso; exact (Split_nonempty t Hs)|].
      intros [= <- ->]. destruct (IH q eq_refl) as [-> Hnd].
      split; [reflexivity|]. simpl. exact Hnd.
Qed.

Lemma Split_two_inv (t p0 p1 : string) :
  Split t "." = [p0; p1] →
  t = p0 ++ "." ++ p1 ∧ noDot p0 = true ∧ noDot p1 = true.
Proof.
  revert p0 p1. induction t as [|a t IH]; intros p0 p1; simpl; [discriminate|].
  destruct (Ascii.eqb a ".") eqn:Ha.
  - intros [= <- Hrest]. apply Ascii.eqb_eq in Ha. subst a.
    destruct (Split_single t p1 Hrest) as [-> Hnd].
    split; [reflexivity|]. split; [reflexivity | exact Hnd].
  - destruct (Split t ".") as [|q qs] eqn:Hs; [discriminate|].
    intros [= <- ->]. destruct (IH q p1 eq_refl) as (-> & Hq & Hp1).
    split; [reflexivity|]. split; [|exact Hp1]. simpl. rewrite Ha. exact Hq.
Qed.

Lemma Split_noDot (t : string) : noDot t = true → Split t "." = [t].
Proof.
  induction t as [|a t IH]; simpl; [reflexivity|].
  intros [Ha Ht]%andb_prop. apply negb_true_iff in Ha. rewrite Ha, (IH Ht). reflexivity.
Qed.

Lemma Split_join (p0 p1 : string) :
  noDot p0 = true → noDot p1 = true → Split (p0 ++ "." ++ p1) "." = [p0; p1].
Proof.
  intros H0 H1. induction p0 as [|a p0 IH].
  - change (Split (EmptyString ++ "." ++ p1) ".") with (EmptyString :: Split p1 ".").
    rewrite (Split_noDot p1 H1). reflexivity.
  - simpl in H0. apply andb_prop in H0 as [Ha H0]. apply negb_true_iff in Ha.
    change (Split (String a p0 ++ "." ++ p1) ".")
      with (if Ascii.eqb a "."%char then EmptyString :: Split (p0 ++ "." ++ p1) "."
            else match Split (p0 ++ "." ++ p1) "." with
                 | [] => [String a EmptyString]
                 | p :: ps => String a p :: ps
                 end).
    rewrite Ha, (IH H0). reflexivity.
Qed.

Lemma upperByte_facts (a : ascii) :
  upperByte (upperByte a) = upperByte a
  ∧ isSeparator (upperByte a) = isSeparator a
  ∧ Ascii.eqb (upperByte a) "."%char = Ascii.eqb a "."%char
  ∧ isLowerByte (upperByte a) = false.
Proof.
  destruct a as [b0 b1 b2 b3 b4 b5 b6 b7].
  destruct b0, b1, b2, b3, b4, b5, b6, b7; vm_compute; repeat split; reflexivity.
Qed.

Lemma upperFirst_ascii (p : string) :
  asciiInitial p = true →
  ∃ a p', p = String a p' ∧ upperFirst p = Ret (String (upperByte a) p').
Proof.
  destruct p as [|a p']; simpl; [discriminate|]. intros Ha.
  exists a, p'. split; [reflexivity|]. unfold ToUpper1. rewrite Ha. reflexivity.
Qed.

Lemma Title_upper (a : ascii) (p' : string) :
  Title (String (upperByte a) p') = Title (String a p').
Proof.
  unfold Title. simpl. destruct (upperByte_facts a) as (-> & -> & _ & _). reflexivity.
Qed.

Lemma Title_not_lower (p : string) : startsLower (Title p) = false.
Proof.
  destruct p as [|a p']; [reflexivity|]. unfold Title. simpl.
  destruct (upperByte_facts a) as (_ & _ & _ & Hl). exact Hl.
Qed.

(** On a name of two segments that begin with ASCII bytes the
    capitalization succeeds and makes no difference to [get]. *)
Lemma get_capitalized m (meth p0 p1 : string) :
  Split meth "." = [p0; p1] →
  asciiInitial p0 = true → asciiInitial p1 = true →
  ∃ c, capitalizeMethod meth = Ret c ∧ get m c = get m meth.
Proof.
  intros Hsplit H0 H1. destruct (Split_two_inv meth p0 p1 Hsplit) as (_ & Hd0 & Hd1).
  destruct (upperFirst_ascii p0 H0) as (a0 & q0 & -> & Hu0).
  destruct (upperFirst_ascii p1 H1) as (a1 & q1 & -> & Hu1).
  unfold capitalizeMethod. rewrite Hsplit, Hu0. cbn [go_bind]. rewrite Hu1. cbn [go_bind].
  eexists. split; [reflexivity|]. unfold get. rewrite Hsplit.
  assert (Hn0 : noDot (String (upperByte a0) q0) = true).
  { simpl in Hd0 |- *. destruct (upperByte_facts a0) as (_ & _ & -> & _). exact Hd0. }
  assert (Hn1 : noDot (String (upperByte a1) q1) = true).
  { simpl in Hd1 |- *. destruct (upperByte_facts a1) as (_ & _ & -> & _). exact Hd1. }
  rewrite (Split_join _ _ Hn0 Hn1), !Title_upper. reflexivity.
Qed.

(** X7: [getNormalizedMethod] never changes a name: for a name whose segments,
    when it has two, begin with ASCII bytes, it returns the name itself
    when [get] finds it and the not-found error otherwise; the second
    lookup, of the capitalized name, finds nothing [get] had not found. *)
Theorem normalization_keeps_name s (meth : string) :
  (∀ p0 p1, Split meth "." = [p0; p1] →
            asciiInitial p0 = true ∧ asciiInitial p1 = true) →
  getNormalizedMethod s meth =
    Ret (match get (srvServices s) meth with
         | Ok _ => Ok meth
         | Err _ => Err (errMethodNotFound meth)
         end).
Proof.
  intros Hascii. unfold getNormalizedMethod.
  destruct (get (srvServices s) meth) as [found|e] eqn:Hget; [reflexivity|].
  destruct (Split meth ".") as [|p0 [|p1 [|p2 ps]]] eqn:Hsplit.
  - unfold capitalizeMethod. rewrite Hsplit. cbn [go_bind].
    rewrite (bool_decide_eq_false_2 (meth ≠ meth)) by tauto. reflexivity.
  - unfold capitalizeMethod. rewrite Hsplit. cbn [go_bind].
    rewrite (bool_decide_eq_false_2 (meth ≠ meth)) by tauto. reflexivity.
  - destruct (Hascii p0 p1 eq_refl) as [H0 H1].
    destruct (get_capitalized (srvServices s) meth p0 p1 Hsplit H0 H1) as (c & -> & Hc).
    cbn [go_bind]. rewrite Hc, Hget.
    destruct (bool_decide (c ≠ meth)); reflexivity.
  - unfold capitalizeMethod. rewrite Hsplit. cbn [go_bind].
    rewrite (bool_decide_eq_false_2 (meth ≠ meth)) by tauto. reflexivity.
Qed.

(** X8: [HasMethod] answers true exactly for the names the dispatcher resolves,
    and panics where [getNormalizedMethod] panics. *)
Theorem HasMethod_agrees_with_dispatch s (meth : string) :
  HasMethod s meth =
    go_bind (getNormalizedMethod s meth)
      (fun res => Ret (match res with Ok _ => true | Err _ => false end)).
Proof.
  unfold HasMethod, getNormalizedMethod.
  destruct (get (srvServices s) meth); [reflexivity|].
  destruct (capitalizeMethod meth) as [c|]; [|reflexivity]. cbn [go_bind].
  destruct (bool_decide (c ≠ meth)); [|reflexivity].
  destruct (get (srvServices s) c); reflexivity.
Qed.

(** X9: A name of two segments one of which is empty, such as [.say] or
    [service.], that [get] does not find makes [ServeHTTP] panic when it
    arrives in the path [/rpc/<name>]: the capitalization slices the
    first byte off an empty string, and no response is written. *)
Theorem empty_segment_panics s r (meth p0 p1 : string) (e : error) :
  verbAllowed s r = true →
  reqPath r = "/rpc/" ++ meth →
  Split meth "." = [p0; p1] →
  p0 = EmptyString ∨ p1 = EmptyString →
  get (srvServices s) meth = Err e →
  getNormalizedMethod s meth = Panics ∧ serveHTTP s r = panics.
Proof.
  intros Hallowed Hpath Hsplit Hempty Hget.
  assert (Hpanic : getNormalizedMethod s meth = Panics).
  { unfold getNormalizedMethod, capitalizeMethod. rewrite Hget, Hsplit.
    destruct Hempty as [-> | ->]; [reflexivity|].
    destruct p0; reflexivity. }
  split; [exact Hpanic|].
  assert (Hne : meth ≠ EmptyString) by (intros ->; discriminate Hsplit).
  unfold verbAllowed in Hallowed. unfold ServeHTTP. rewrite Hallowed. cbn [negb].
  unfold pathMethod. rewrite Hpath.
  change (HasPrefix ("/rpc/" ++ meth) "/rpc/") with (String.prefix EmptyString meth).
  change (TrimPrefix ("/rpc/" ++ meth) "/rpc/")
    with (if String.prefix EmptyString meth then meth else "/rpc/" ++ meth).
  assert (String.prefix EmptyString meth = true) as -> by (destruct meth; reflexivity).
  rewrite (bool_decide_eq_true_2 _ Hne), Hpanic. reflexivity.
Qed.

(** X10: [get] never looks a service up under a key that begins with a
    lower-case ASCII letter: in a registry that holds only such keys no
    name resolves. *)
Theorem lower_case_keys_unreachable m (meth : string) :
  (∀ k svc, entries m !! k = Some svc → startsLower k = true) →
  ∃ e, get m meth = Err e.
Proof.
  intros Hkeys. unfold get.
  destruct (Split meth ".") as [|p0 [|p1 [|p2 ps]]]; try (eexists; reflexivity).
  destruct (entries m !! Title p0) as [svc|] eqn:Hsvc; [|eexists; reflexivity].
  apply Hkeys in Hsvc. rewrite Title_not_lower in Hsvc. discriminate.
Qed.

(** X11: The method name of the path [/rpc/<name>] takes precedence: once it
    resolves, the request is dispatched to it, whatever method the query
    string or the body names. *)
Theorem path_name_takes_precedence s r (meth n : string) (c : CodecRequest)
    (r' : @Request Value) :
  verbAllowed s r = true →
  reqPath r = "/rpc/" ++ meth →
  getNormalizedMethod s meth = Ret (Ok n) →
  selectCodec s r = Chosen (Some JSONCodec) →
  NewRequest r = Ret (c, r') →
  serveHTTP s r = dispatchTo s r' c n.
Proof.
  intros Hallowed Hpath Hnorm Hcodec Hnew.
  assert (Hne : meth ≠ EmptyString).
  { intros ->. unfold getNormalizedMethod in Hnorm. simpl in Hnorm.
    discriminate Hnorm. }
  assert (Hn : n ≠ EmptyString).
  { intros ->. unfold getNormalizedMethod in Hnorm.
    destruct (get (srvServices s) meth) as [found|e].
    - injection Hnorm as Hm. exact (Hne Hm).
    - destruct (capitalizeMethod meth) as [cm|]; [|discriminate]. cbn [go_bind] in Hnorm.
      destruct (bool_decide (cm ≠ meth)); [|discriminate].
      destruct (get (srvServices s) cm) as [found|e'] eqn:Hcm; [|discriminate].
      injection Hnorm as ->. discriminate Hcm. }
  unfold verbAllowed in Hallowed. unfold ServeHTTP. rewrite Hallowed. cbn [negb].
  unfold pathMethod. rewrite Hpath.
  change (HasPrefix ("/rpc/" ++ meth) "/rpc/") with (String.prefix EmptyString meth).
  change (TrimPrefix ("/rpc/" ++ meth) "/rpc/")
    with (if String.prefix EmptyString meth then meth else "/rpc/" ++ meth).
  assert (String.prefix EmptyString meth = true) as -> by (destruct meth; reflexivity).
  rewrite (bool_decide_eq_true_2 _ Hne), Hnorm. cbn [run_bind].
  rewrite Hcodec, Hnew. cbn [run_bind].
  rewrite (bool_decide_eq_true_2 _ Hn). reflexivity.
Qed.

End NameProperties.

(** ** The registry after a registration *)

Section RegistryContents.

Context {Value : Type}.
Implicit Types (m : @serviceMap Value) (r : @Receiver Value) (nm : string).

Lemma scanMethod_Some (meth : @reflectMethod Value) (sm : serviceMethod) :
  scanMethod meth = Some sm →
  method sm = meth
  ∧ isExported (methName meth) = true
  ∧ methOut meth = [errorType]
  ∧ (if noArgs sm
     then argsType sm = emptyStruct
          ∧ ∃ rcv, methIn meth = [rcv; httpReqType; TPtr (replyType sm)]
     else ∃ rcv, methIn meth
                 = [rcv; httpReqType; TPtr (argsType sm); TPtr (replyType sm)]).
Proof.
  unfold scanMethod, checkOut.
  destruct (isExported (methName meth)); cbn [negb]; [|discriminate].
  destruct (bool_decide (methPkgPath meth = EmptyString)); cbn [negb]; [|discriminate].
  destruct (methIn meth) as [|i0 [|i1 [|i2 [|i3 [|i4 ins]]]]]; try discriminate.
  - destruct (decide (i1 = httpReqType)) as [->|Hne];
      [rewrite (bool_decide_eq_true_2 (httpReqType = httpReqType)) by reflexivity
      |rewrite (bool_decide_eq_false_2 _ Hne)]; cbn [negb]; [|discriminate].
    destruct i2 as [| e2 |]; try discriminate.
    destruct (isExportedOrBuiltin (TPtr e2)); cbn [negb]; [|discriminate].
    destruct (methOut meth) as [|o [|o' outs]]; try discriminate.
    destruct (decide (o = errorType)) as [->|Hno];
      [rewrite (bool_decide_eq_true_2 (errorType = errorType)) by reflexivity
      |rewrite (bool_decide_eq_false_2 _ Hno)]; [|discriminate].
    intros [= <-]. cbn. repeat split; eauto.
  - destruct (decide (i1 = httpReqType)) as [->|Hne];
      [rewrite (bool_decide_eq_true_2 (httpReqType = httpReqType)) by reflexivity
      |rewrite (bool_decide_eq_false_2 _ Hne)]; cbn [negb]; [|discriminate].
    destruct i2 as [| e2 |]; try discriminate.
    destruct (isExportedOrBuiltin (TPtr e2)); cbn [negb]; [|discriminate].
    destruct i3 as [| e3 |]; try discriminate.
    destruct (isExportedOrBuiltin (TPtr e3)); cbn [negb]; [|discriminate].
    destruct (methOut meth) as [|o [|o' outs]]; try discriminate.
    destruct (decide (o = errorType)) as [->|Hno];
      [rewrite (bool_decide_eq_true_2 (errorType = errorType)) by reflexivity
      |rewrite (bool_decide_eq_false_2 _ Hno)]; [|discriminate].
    intros [= <-]. cbn. repeat split; eauto.
Qed.

Lemma scanMethods_fold_lookup (ms : list (@reflectMethod Value))
    (acc : gmap string (@serviceMethod Value)) (n : string) (sm : serviceMethod) :
  foldl (fun (acc : gmap string (@serviceMethod Value)) meth =>
           match scanMethod meth with
           | Some sm => <[methName meth := sm]> acc
           | None => acc
           end) acc ms !! n = Some sm →
  acc !! n = Some sm
  ∨ ∃ meth, In meth ms ∧ methName meth = n ∧ scanMethod meth = Some sm.
Proof.
  revert acc. induction ms as [|meth ms IH]; intros acc; simpl; [auto|].
  intros Hl. destruct (IH _ Hl) as [Hacc|(meth' & Hin & Hn & Hs)].
  - destruct (scanMethod meth) as [sm'|] eqn:Hsm; [|left; exact Hacc].
    destruct (decide (methName meth = n)) as [Heq|Hne].
    + rewrite Heq, lookup_insert_eq in Hacc. injection Hacc as ->.
      right. exists meth. auto.
    + rewrite lookup_insert_ne in Hacc by exact Hne. left. exact Hacc.
  - right. exists meth'. auto.
Qed.

Lemma scanMethods_lookup (ms : list (@reflectMethod Value)) (n : string)
    (sm : serviceMethod) :
  scanMethods ms !! n = Some sm →
  ∃ meth, In meth ms ∧ methName meth = n ∧ scanMethod meth = Some sm.
Proof.
  intros Hl. destruct (scanMethods_fold_lookup ms ∅ n sm Hl) as [He|H]; [|exact H].
  rewrite lookup_empty in He. discriminate.
Qed.

(** X12: Every descriptor [register] stores is stored under the name of its
    method, which is exported and is one of the receiver's; the method
    returns just an error; a descriptor without arguments has the empty
    struct for its arguments type and the shape (request, reply), any
    other the shape (request, args, reply), args and reply being what the
    pointers point to. *)
Theorem registered_descriptors_well_formed (ms : list (@reflectMethod Value))
    (n : string) (sm : serviceMethod) :
  scanMethods ms !! n = Some sm →
  In (method sm) ms
  ∧ methName (method sm) = n
  ∧ isExported n = true
  ∧ methOut (method sm) = [errorType]
  ∧ (if noArgs sm
     then argsType sm = emptyStruct
          ∧ ∃ rcv, methIn (method sm) = [rcv; httpReqType; TPtr (replyType sm)]
     else ∃ rcv, methIn (method sm)
                 = [rcv; httpReqType; TPtr (argsType sm); TPtr (replyType sm)]).
Proof.
  intros Hl. destruct (scanMethods_lookup ms n sm Hl) as (meth & Hin & Hn & Hs).
  destruct (scanMethod_Some meth sm Hs) as (Hm & Hex & Hout & Hshape).
  rewrite Hm. rewrite <- Hn. repeat split; assumption.
Qed.

Lemma register_success_entries m r nm m' :
  register m r nm = (m', None) →
  entries m !! resolvedName r nm = None
  ∧ scanMethods (rcvrMethods r) ≠ ∅
  ∧ entries m'
    = <[resolvedName r nm :=
          mkService (resolvedName r nm) r (scanMethods (rcvrMethods r))]> (entries m).
Proof.
  destruct (register_cases m r nm) as [[-> Hex]|Hname].
  - rewrite (register_not_exported m r Hex). discriminate.
  - rewrite (register_checked m r nm Hname). cbv zeta.
    destruct (bool_decide (is_Some (entries m !! resolvedName r nm))) eqn:Hin;
      [discriminate|].
    destruct (bool_decide (scanMethods (rcvrMethods r) = ∅)) eqn:Hempty; [discriminate|].
    intros [= <-]. apply bool_decide_eq_false in Hin. apply bool_decide_eq_false in Hempty.
    split; [|split; [exact Hempty | reflexivity]].
    destruct (entries m !! resolvedName r nm) eqn:Hl; [|reflexivity].
    exfalso. apply Hin. eauto.
Qed.

(** X13: A successful registration adds one entry, under the resolved name,
    which was free; the service has at least one method; every other entry
    of the registry is as it was. *)
Theorem register_success_adds_one m r nm m' :
  register m r nm = (m', None) →
  entries m !! resolvedName r nm = None
  ∧ entries m' !! resolvedName r nm
    = Some (mkService (resolvedName r nm) r (scanMethods (rcvrMethods r)))
  ∧ scanMethods (rcvrMethods r) ≠ ∅
  ∧ ∀ k, k ≠ resolvedName r nm → entries m' !! k = entries m !! k.
Proof.
  intros Hreg. destruct (register_success_entries m r nm m' Hreg) as (Hfree & Hne & ->).
  split; [exact Hfree|]. split; [apply lookup_insert_eq|]. split; [exact Hne|].
  intros k Hk. apply lookup_insert_ne. congruence.
Qed.

Lemma capFirst_exported (t : string) : isExported t = true → capFirst t = t.
Proof.
  destruct t as [|a t]; [discriminate|]. simpl. intros Ha. f_equal.
  destruct a as [b0 b1 b2 b3 b4 b5 b6 b7].
  destruct b0, b1, b2, b3, b4, b5, b6, b7; first [discriminate Ha | reflexivity].
Qed.

(** X14: After a successful registration under a name written like an exported
    Go identifier, [get] resolves [Service.Method] for every method
    stored, to the service and the descriptor stored. *)
Theorem registered_method_resolves m r nm m' (mn : string) (sm : serviceMethod) :
  register m r nm = (m', None) →
  identLike (resolvedName r nm) = true →
  isExported (resolvedName r nm) = true →
  scanMethods (rcvrMethods r) !! mn = Some sm →
  identLike mn = true →
  get m' (resolvedName r nm ++ "." ++ mn)
  = Ok (mkService (resolvedName r nm) r (scanMethods (rcvrMethods r)), sm).
Proof.
  intros Hreg Hid Hex Hsm Hmn.
  destruct (register_success_entries m r nm m' Hreg) as (_ & _ & Hentries).
  destruct (scanMethods_lookup _ _ _ Hsm) as (meth & _ & Hname & Hscan).
  destruct (scanMethod_Some meth sm Hscan) as (_ & Hexm & _). rewrite Hname in Hexm.
  unfold get. rewrite (Split_dotted _ _ Hid Hmn).
  rewrite (Title_identLike _ Hid), (Title_identLike _ Hmn).
  rewrite (capFirst_exported _ Hex), (capFirst_exported _ Hexm).
  rewrite Hentries, lookup_insert_eq. cbn [methods]. rewrite Hsm. reflexivity.
Qed.

End RegistryContents.

(** ** The codec on requests without a usable name or body *)

Section CodecEdges.

Context {Value : Type}.
Variable zeroValue : GoType -> Value.
Variable jsonUnmarshal : Json -> GoType -> Value -> Value * option (@error Value).
Variable jsonMarshal : Value -> @result Value Json.
Variable formatValue : Value -> string.

Local Abbreviation serveHTTP := (ServeHTTP zeroValue jsonUnmarshal jsonMarshal formatValue).
Local Abbreviation readRequest := (ReadRequest jsonUnmarshal).
Local Abbreviation writeError := (WriteError jsonMarshal formatValue).

Implicit Types (s : @Server Value) (r : @Request Value).

(** X15: The object [convertURLParamsToJSON] builds has a member for each key
    of the form other than [method] that has a value: the value itself as
    a string when there is one, the array of the values when there are
    several; the key [method] is deleted from the form. *)
Theorem params_follow_form (form : gmap string (list string)) :
  (convertURLParamsToJSON form).1 = delete "method" form
  ∧ ∃ members,
      (convertURLParamsToJSON form).2 = JObject members
      ∧ ∀ k j, (k, j) ∈ members ↔
               k ≠ "method"
               ∧ ∃ vs, form !! k = Some vs
                       ∧ match vs with
                         | [] => False
                         | [v] => j = JString v
                         | _ => j = JArray (JString <$> vs)
                         end.
Proof.
  unfold convertURLParamsToJSON. cbn [fst snd]. split; [reflexivity|].
  eexists. split; [reflexivity|]. intros k j.
  rewrite list_elem_of_omap. split.
  - intros ([k' vs] & Hin & Hp). apply elem_of_map_to_list in Hin.
    apply lookup_delete_Some in Hin as [Hne Hl].
    unfold paramOfValues in Hp. cbn [fst snd] in Hp.
    destruct vs as [|v [|v' vs]]; [discriminate| |]; injection Hp as <- <-.
    + split; [congruence|]. exists [v]. split; [exact Hl | reflexivity].
    + split; [congruence|]. exists (v :: v' :: vs). split; [exact Hl | reflexivity].
  - intros (Hne & vs & Hl & Hj). exists (k, vs). split.
    + apply elem_of_map_to_list, lookup_delete_Some. split; [congruence | exact Hl].
    + unfold paramOfValues. cbn [fst snd].
      destruct vs as [|v [|v' vs]]; [contradiction| |]; rewrite Hj; reflexivity.
Qed.

Lemma firstNonEmpty_head (x : string) (l : list string) :
  firstNonEmpty (x :: l) = EmptyString → x = EmptyString.
Proof.
  cbn [firstNonEmpty]. destruct (decide (x = EmptyString)) as [He|Hne]; [auto|].
  rewrite (bool_decide_eq_true_2 _ Hne). intros Hx. contradiction.
Qed.

(** X16: A GET request whose URL names no method (no name after [/rpc/], no
    path segment, no [method] field) is answered by the codec with status
    400 and the error [rpc: method name missing]. *)
Theorem get_without_method_name s r :
  verbAllowed s r = true →
  reqMethod r = "GET" →
  codecs s ≠ ∅ →
  reqParseForm r = None →
  urlName r = EmptyString →
  serveHTTP s r = returns (jsonBody 400 JNull (JString "rpc: method name missing")).
Proof.
  intros Hallowed Hget Hcodecs Hform Hurl.
  pose proof (firstNonEmpty_head _ _ Hurl) as Hnone.
  unfold verbAllowed in Hallowed. unfold ServeHTTP. rewrite Hallowed. cbn [negb].
  rewrite (pathMethod_none s r Hnone). cbn [run_bind].
  rewrite (selectCodec_GET s r Hget), (bool_decide_eq_false_2 _ Hcodecs).
  unfold NewRequest. rewrite Hform, extractMethodFromURL_urlName, Hurl.
  cbn [capitalizeMethod Split go_bind]. rewrite Hget.
  rewrite (bool_decide_eq_true_2 ("GET" = "GET")) by reflexivity.
  reflexivity.
Qed.

(** X17: When [ParseForm] fails on a request with no method name in its path,
    the request is answered by the codec with status 400 and that error. *)
Theorem parse_form_error_answered s r (e : error) :
  verbAllowed s r = true →
  prefixSource r = EmptyString →
  selectCodec s r = Chosen (Some JSONCodec) →
  reqParseForm r = Some e →
  serveHTTP s r = returns (writeError 400 e).
Proof.
  intros Hallowed Hnone Hcodec Hform.
  unfold verbAllowed in Hallowed. unfold ServeHTTP. rewrite Hallowed. cbn [negb].
  rewrite (pathMethod_none s r Hnone). cbn [run_bind]. rewrite Hcodec.
  unfold NewRequest. rewrite Hform. cbn [run_bind].
  rewrite (bool_decide_eq_false_2 (EmptyString ≠ EmptyString)) by tauto.
  reflexivity.
Qed.

(** X18: A request with another verb than GET whose body does not decode is
    still served when the URL names a method: the codec reports that name
    and no error, and the arguments are then decoded from the empty
    object. *)
Theorem undecodable_body_with_url_name r (e : error) (u : string) :
  reqParseForm r = None →
  reqMethod r ≠ "GET" →
  reqBody r = BodyError e →
  capitalizeMethod (urlName r) = Ret u →
  u ≠ EmptyString →
  ∃ c, NewRequest r = Ret (c, r)
       ∧ Method c = Ret (Ok u)
       ∧ ∀ t args, ∃ c',
           readRequest c t args
           = Ret ((jsonUnmarshal (JObject []) t args).2,
                  (jsonUnmarshal (JObject []) t args).1, c').
Proof.
  intros Hform Hverb Hbody Hu Hne.
  unfold NewRequest. rewrite Hform, extractMethodFromURL_urlName, Hu. cbn [go_bind].
  rewrite (bool_decide_eq_false_2 _ Hverb).
  unfold newPostCodecRequest. rewrite Hbody, (bool_decide_eq_true_2 _ Hne).
  eexists. split; [reflexivity|]. split; [reflexivity|].
  intros t args. unfold ReadRequest. cbn [err request Params Method_].
  destruct (jsonUnmarshal (JObject []) t args) as [args' e']. eexists. reflexivity.
Qed.

End CodecEdges.

(** ** The hook chain and the response on its edges *)

Section ResponseEdges.

Context {Value : Type}.
Variable zeroValue : GoType -> Value.
Variable jsonUnmarshal : Json -> GoType -> Value -> Value * option (@error Value).
Variable jsonMarshal : Value -> @result Value Json.
Variable formatValue : Value -> string.

Local Abbreviation dispatchTo := (dispatch zeroValue jsonUnmarshal jsonMarshal formatValue).
Local Abbreviation respond := (invokeAndRespond zeroValue jsonMarshal formatValue).
Local Abbreviation calls := (callStage zeroValue).
Local Abbreviation responseOf := (response jsonMarshal formatValue).

Implicit Types (s : @Server Value) (r : @Request Value) (meth : string).

Lemma callStage_noArgs s r meth svc ms (args : Value) :
  noArgs ms = true →
  calls s r meth svc ms args =
    let out := methFunc (method ms) (interceptedRequest s r meth) None
                 (zeroValue (replyType ms)) in
    (app (hookEvents s r meth)
       [CallMethod (name svc) (methName (method ms)) (interceptedRequest s r meth) None],
     interceptedRequest s r meth, out.1, out.2).
Proof.
  intros Hargs. unfold callStage, hookEvents, interceptedRequest. rewrite Hargs. cbn [negb].
  destruct (interceptFunc s) as [fi|], (beforeFunc s) as [fb|], (validateFunc s) as [fv|];
    repeat case_match; simplify_eq; reflexivity.
Qed.

Lemma writes_no_validate (l : list (@Event Value)) :
  forallb isWrite l = true → forallb (fun ev => negb (isValidate ev)) l = true.
Proof.
  induction l as [|ev l IH]; [reflexivity|]. simpl.
  intros [Hev Hl]%andb_prop. rewrite (IH Hl). destruct ev; try discriminate; reflexivity.
Qed.

(** X19: For a method without arguments nothing is decoded and the validate
    function is not called: whatever the codec request holds, the method
    is called, without arguments, after the intercept and before
    functions. *)
Theorem no_args_method_skips_decoding s r (c : CodecRequest) meth svc ms :
  get (srvServices s) meth = Ok (svc, ms) →
  noArgs ms = true →
  dispatchTo s r c meth = respond s r meth svc ms (zeroValue emptyStruct)
  ∧ forallb (fun ev => negb (isValidate ev)) (dispatchTo s r c meth).1 = true
  ∧ ∃ rest, (dispatchTo s r c meth).1
            = app (hookEvents s r meth)
                (CallMethod (name svc) (methName (method ms))
                   (interceptedRequest s r meth) None :: rest).
Proof.
  intros Hget Hargs.
  assert (Hd : dispatchTo s r c meth = respond s r meth svc ms (zeroValue emptyStruct)).
  { unfold dispatch, decodeArgs. rewrite Hget, Hargs. reflexivity. }
  split; [exact Hd|]. rewrite Hd. unfold invokeAndRespond.
  rewrite (callStage_noArgs s r meth svc ms _ Hargs). cbv zeta.
  destruct (methFunc (method ms) (interceptedRequest s r meth) None
              (zeroValue (replyType ms))) as [reply errValue].
  cbn [fst snd returns]. split.
  - rewrite !forallb_app. cbn [forallb isValidate negb andb].
    assert (forallb (fun ev => negb (isValidate ev)) (hookEvents s r meth) = true) as ->.
    { unfold hookEvents. destruct (interceptFunc s), (beforeFunc s); reflexivity. }
    assert (forallb (fun ev => negb (isValidate ev))
              match errValue with
              | Some errResult =>
                  WriteError jsonMarshal formatValue
                    match errValue with None => 200%Z | Some _ => 400%Z end errResult
              | None => WriteResponse jsonMarshal formatValue reply
              end = true) as ->.
    { destruct errValue;
        [apply writes_no_validate, WriteError_writes
        |apply writes_no_validate, WriteResponse_writes]. }
    destruct (afterFunc s); reflexivity.
  - eexists. rewrite <- app_assoc. reflexivity.
Qed.

(** X20: When the method succeeds with a reply that [json.Marshal] rejects, the
    response is the plain-text error with status 400, and the after
    function is nevertheless told status 200 and no error. *)
Theorem unmarshallable_reply s r meth svc ms (args : Value)
    (evs : list Event) (r1 : @Request Value) (reply : Value) (e : error) :
  calls s r meth svc ms args = (evs, r1, reply, None) →
  jsonMarshal reply = Err e →
  afterFunc s = true →
  respond s r meth svc ms args =
    returns (app evs
               [SetHeader "x-content-type-options" "nosniff";
                SetHeader "Content-Type" "text/plain; charset=utf-8";
                WriteHeader 400;
                WriteText (errorMessage formatValue e);
                CallAfter (mkRequestInfo meth None r1 200)]).
Proof.
  intros Hcalls Hmarshal Hafter. unfold invokeAndRespond. rewrite Hcalls, Hafter.
  unfold WriteResponse, writeServerResponse, marshalResponse. cbn [Result marshalIface].
  rewrite Hmarshal. reflexivity.
Qed.

Lemma writes_carry (rq : @Request Value) (l : list (@Event Value)) :
  forallb isWrite l = true → Forall (carriesRequest rq) l.
Proof.
  induction l as [|ev l IH]; [constructor|]. simpl.
  intros [Hev Hl]%andb_prop. constructor; [|exact (IH Hl)].
  destruct ev; try discriminate; exact I.
Qed.

(** X21: The request the intercept function returns (the incoming one when it
    returns nil or is not registered) is the request the before function,
    the method and the after function receive. *)
Theorem intercepted_request_is_used s r meth svc ms (args : Value) :
  Forall (carriesRequest (interceptedRequest s r meth)) (respond s r meth svc ms args).1.
Proof.
  unfold invokeAndRespond, callStage, interceptedRequest.
  destruct (interceptFunc s) as [fi|], (beforeFunc s) as [fb|], (validateFunc s) as [fv|];
    repeat case_match; simplify_eq; cbn [returns fst];
    repeat (apply Forall_app; split);
    repeat match goal with
           | |- Forall _ [] => constructor
           | |- Forall _ (_ :: _) => constructor
           | |- carriesRequest _ _ => first [exact I | reflexivity]
           | |- Forall _ (WriteError _ _ _ _) => apply writes_carry, WriteError_writes
           | |- Forall _ (WriteResponse _ _ _) => apply writes_carry, WriteResponse_writes
           end.
Qed.

End ResponseEdges.

(** ** The further properties on the example program *)

Lemma removed_verb_is_rejected_witness :
  Hello.serve (removeMethod (Hello.newServer Hello.registry) "GET")
    (Hello.getRequest "/rpc/HelloService.Say" ∅)
  = returns
      [SetHeader "Content-Type" "text/plain; charset=utf-8";
       WriteHeader 405;
       WriteText "rpc: only POST,DELETE,PUT methods are allowed, received GET"].
Proof.
  exact (removed_verb_is_rejected Hello.zeroValue Hello.jsonUnmarshal Hello.jsonMarshal
           Hello.formatValue (Hello.newServer Hello.registry)
           (Hello.getRequest "/rpc/HelloService.Say" ∅) "GET" eq_refl).
Defined.

Lemma other_verbs_unaffected_witness :
  Hello.serve (removeMethod (Hello.newServer Hello.registry) "GET")
    (Hello.postRequest "/rpc" (BodyRequest "HelloService.Say" None))
  = Hello.serve (Hello.newServer Hello.registry)
      (Hello.postRequest "/rpc" (BodyRequest "HelloService.Say" None)).
Proof.
  apply (other_verbs_unaffected Hello.zeroValue Hello.jsonUnmarshal Hello.jsonMarshal
           Hello.formatValue (Hello.newServer Hello.registry)
           (Hello.postRequest "/rpc" (BodyRequest "HelloService.Say" None)) "GET");
    [discriminate | reflexivity].
Defined.

Lemma get_ignores_content_type_witness :
  selectCodec (Hello.newServer Hello.registry) (Hello.getRequest "/rpc/HelloService.Say" ∅)
  = Chosen (Some JSONCodec).
Proof.
  exact (get_ignores_content_type (Hello.newServer Hello.registry)
           (Hello.getRequest "/rpc/HelloService.Say" ∅) eq_refl).
Defined.

Lemma get_without_codec_panics_witness :
  Hello.serve NewServer (Hello.getRequest "/" ∅) = panics.
Proof.
  apply (get_without_codec_panics Hello.zeroValue Hello.jsonUnmarshal Hello.jsonMarshal
           Hello.formatValue NewServer (Hello.getRequest "/" ∅));
    reflexivity.
Defined.

Lemma registered_codec_is_selected_witness :
  selectCodec (RegisterCodec NewServer JSONCodec "application/json") upperCaseJSONRequest
  = Chosen (Some JSONCodec).
Proof.
  apply (registered_codec_is_selected NewServer upperCaseJSONRequest "application/json");
    [discriminate | reflexivity].
Defined.

Lemma unknown_content_type_rejected_witness :
  Hello.serve (Hello.newServer Hello.registry) xmlRequest
  = returns
      [SetHeader "Content-Type" "text/plain; charset=utf-8";
       WriteHeader 415;
       WriteText "rpc: unrecognized Content-Type: text/xml"].
Proof.
  apply (unknown_content_type_rejected Hello.zeroValue Hello.jsonUnmarshal
           Hello.jsonMarshal Hello.formatValue (Hello.newServer Hello.registry) xmlRequest);
    [reflexivity | discriminate | reflexivity | vm_compute; reflexivity
    | intros [H _]; discriminate H].
Defined.

Lemma normalization_keeps_name_witness :
  getNormalizedMethod (Hello.newServer Hello.registry) "helloService.say"
  = Ret (Ok "helloService.say").
Proof.
  rewrite (normalization_keeps_name (Hello.newServer Hello.registry) "helloService.say").
  - vm_compute. reflexivity.
  - intros p0 p1 [= <- <-]. split; reflexivity.
Defined.

Lemma empty_segment_panics_witness :
  getNormalizedMethod (Hello.newServer Hello.registry) ".say" = Panics
  ∧ Hello.serve (Hello.newServer Hello.registry) (Hello.getRequest "/rpc/.say" ∅) = panics.
Proof.
  apply (empty_segment_panics Hello.zeroValue Hello.jsonUnmarshal Hello.jsonMarshal
           Hello.formatValue (Hello.newServer Hello.registry)
           (Hello.getRequest "/rpc/.say" ∅) ".say" EmptyString "say"
           (ErrorString "rpc: can't find service "));
    [reflexivity | reflexivity | reflexivity | left; reflexivity | vm_compute; reflexivity].
Defined.

Lemma lower_case_keys_unreachable_witness :
  ∃ e, get lowerRegistry "hello.say" = Err e.
Proof.
  apply (lower_case_keys_unreachable lowerRegistry "hello.say").
  intros k svc.
  change (entries lowerRegistry)
    with (<["hello" := mkService "hello" Hello.helloService
                         (scanMethods (rcvrMethods Hello.helloService))]>
            (∅ : gmap string (@service Hello.V))).
  intros Hl. apply lookup_insert_Some in Hl as [[<- _]|[_ Hl]]; [reflexivity|].
  rewrite lookup_empty in Hl. discriminate.
Defined.

Lemma path_name_takes_precedence_witness :
  Hello.serve (Hello.newServer Hello.registry)
    (Hello.postRequest "/rpc/HelloService.NoArgs" (BodyRequest "HelloService.Say" None))
  = dispatch Hello.zeroValue Hello.jsonUnmarshal Hello.jsonMarshal Hello.formatValue
      (Hello.newServer Hello.registry)
      (Hello.postRequest "/rpc/HelloService.NoArgs" (BodyRequest "HelloService.Say" None))
      (mkCodecRequest (Some (mkServerRequest "HelloService.Say" None)) None)
      "HelloService.NoArgs".
Proof.
  apply (path_name_takes_precedence Hello.zeroValue Hello.jsonUnmarshal Hello.jsonMarshal
           Hello.formatValue (Hello.newServer Hello.registry)
           (Hello.postRequest "/rpc/HelloService.NoArgs"
              (BodyRequest "HelloService.Say" None))
           "HelloService.NoArgs");
    vm_compute; reflexivity.
Defined.

Lemma registered_descriptors_well_formed_witness :
  methName (method sayMethod) = "Say" ∧ isExported "Say" = true.
Proof.
  destruct (registered_descriptors_well_formed (rcvrMethods Hello.helloService)
              "Say" sayMethod ltac:(vm_compute; reflexivity)) as (_ & Hn & Hex & _).
  split; [exact Hn | exact Hex].
Defined.

Lemma register_success_adds_one_witness :
  entries Hello.newServiceMap !! "HelloService" = None
  ∧ entries Hello.registry !! "HelloService" = Some helloSvc.
Proof.
  destruct (register_success_adds_one Hello.newServiceMap Hello.helloService EmptyString
              Hello.registry ltac:(vm_compute; reflexivity)) as (Hfree & Hnew & _).
  split; [exact Hfree | exact Hnew].
Defined.

Lemma registered_method_resolves_witness :
  get Hello.registry "HelloService.Say" = Ok (helloSvc, sayMethod).
Proof.
  apply (registered_method_resolves Hello.newServiceMap Hello.helloService EmptyString
           Hello.registry "Say" sayMethod);
    vm_compute; reflexivity.
Defined.

Lemma get_without_method_name_witness :
  Hello.serve (Hello.newServer Hello.registry) (Hello.getRequest "/" ∅)
  = returns (jsonBody 400 JNull (JString "rpc: method name missing")).
Proof.
  apply (get_without_method_name Hello.zeroValue Hello.jsonUnmarshal Hello.jsonMarshal
           Hello.formatValue (Hello.newServer Hello.registry) (Hello.getRequest "/" ∅));
    [reflexivity | reflexivity | apply insert_non_empty | reflexivity
    | vm_compute; reflexivity].
Defined.

Lemma parse_form_error_answered_witness :
  Hello.serve (Hello.newServer Hello.registry) unparsedRequest
  = returns (jsonBody 400 JNull (JString "invalid URL escape")).
Proof.
  apply (parse_form_error_answered Hello.zeroValue Hello.jsonUnmarshal Hello.jsonMarshal
           Hello.formatValue (Hello.newServer Hello.registry) unparsedRequest
           (ErrorString "invalid URL escape"));
    vm_compute; reflexivity.
Defined.

Lemma undecodable_body_with_url_name_witness :
  ∃ c, NewRequest (Hello.postRequest "/rpc/HelloService.NoArgs" (BodyError (ErrorString "EOF")))
       = Ret (c, Hello.postRequest "/rpc/HelloService.NoArgs" (BodyError (ErrorString "EOF")))
       ∧ Method c = Ret (Ok "HelloService.NoArgs").
Proof.
  destruct (undecodable_body_with_url_name Hello.jsonUnmarshal
              (Hello.postRequest "/rpc/HelloService.NoArgs" (BodyError (ErrorString "EOF")))
              (ErrorString "EOF") "HelloService.NoArgs"
              eq_refl ltac:(discriminate) eq_refl ltac:(vm_compute; reflexivity)
              ltac:(discriminate)) as (c & Hnew & Hmethod & _).
  exists c. split; [exact Hnew | exact Hmethod].
Defined.

Lemma no_args_method_skips_decoding_witness :
  dispatch Hello.zeroValue Hello.jsonUnmarshal Hello.jsonMarshal Hello.formatValue
    (Hello.newServer Hello.registry) unparsedRequest
    (mkCodecRequest None (Some (ErrorString "invalid URL escape"))) "HelloService.NoArgs"
  = invokeAndRespond Hello.zeroValue Hello.jsonMarshal Hello.formatValue
      (Hello.newServer Hello.registry) unparsedRequest "HelloService.NoArgs"
      helloSvc noArgsMethod (Hello.zeroValue emptyStruct).
Proof.
  apply (no_args_method_skips_decoding Hello.zeroValue Hello.jsonUnmarshal
           Hello.jsonMarshal Hello.formatValue (Hello.newServer Hello.registry)
           unparsedRequest
           (mkCodecRequest None (Some (ErrorString "invalid URL escape")))
           "HelloService.NoArgs" helloSvc noArgsMethod);
    vm_compute; reflexivity.
Defined.

Lemma unmarshallable_reply_witness :
  invokeAndRespond Hello.zeroValue Hello.jsonMarshal Hello.formatValue observedServer
    (Hello.getRequest "/rpc/HelloService.Broken" ∅) "HelloService.Broken"
    helloSvc brokenMethod (Hello.zeroValue emptyStruct)
  = returns
      [CallMethod "HelloService" "Broken" (Hello.getRequest "/rpc/HelloService.Broken" ∅) None;
       SetHeader "x-content-type-options" "nosniff";
       SetHeader "Content-Type" "text/plain; charset=utf-8";
       WriteHeader 400;
       WriteText "json: unsupported type";
       CallAfter (mkRequestInfo "HelloService.Broken" None
                    (Hello.getRequest "/rpc/HelloService.Broken" ∅) 200)].
Proof.
  exact (unmarshallable_reply Hello.zeroValue Hello.jsonMarshal Hello.formatValue
           observedServer (Hello.getRequest "/rpc/HelloService.Broken" ∅)
           "HelloService.Broken" helloSvc brokenMethod (Hello.zeroValue emptyStruct)
           [CallMethod "HelloService" "Broken"
              (Hello.getRequest "/rpc/HelloService.Broken" ∅) None]
           (Hello.getRequest "/rpc/HelloService.Broken" ∅) None
           (ErrorString "json: unsupported type") eq_refl eq_refl eq_refl).
Defined.
